(** * matlab-proxy: the start-up validators of [matlab_proxy/util/mwi/validators.py]

    A shallow embedding of the validators and the properties of the
    specification that concern them.

    Conventions of the embedding:
    - a Python [str] is a [string]; a character is a code point below 256;
    - [None] is [None] of an [option];
    - a validator is a computation in a small monad that collects the
      records handed to the module's logger and ends either in a returned
      value or in a raised exception;
    - what the validators ask of their surroundings (the file system, the
      socket layer, the builtin [int] and [repr], the names defined in
      sibling modules) is gathered in the record [Env]. *)

From Stdlib Require Import String Ascii List Bool ZArith Lia DecimalString.
Import ListNotations.
Local Open Scope string_scope.
Local Open Scope list_scope.

Set Implicit Arguments.

(** ** Python strings *)

Module PyStr.

(** The characters a string literal cannot hold directly. *)
Definition dquote : string := String (ascii_of_nat 34) EmptyString.
Definition newline : ascii := ascii_of_nat 10.
Definition nl : string := String newline EmptyString.

(** [s.startswith(p)] *)
Definition startswith (s p : string) : bool := String.prefix p s.

(** [s.endswith(p)] *)
Fixpoint endswith (s p : string) : bool :=
  if String.eqb s p then true
  else match s with
       | EmptyString => false
       | String _ s' => endswith s' p
       end.

(** [s[:-1]] *)
Fixpoint drop_last (s : string) : string :=
  match s with
  | EmptyString => EmptyString
  | String _ EmptyString => EmptyString
  | String c s' => String c (drop_last s')
  end.

(** [p in s] for strings *)
Fixpoint contains (s p : string) : bool :=
  if String.prefix p s then true
  else match s with
       | EmptyString => false
       | String _ s' => contains s' p
       end.

(** Truth value of a string, [bool(s)]. *)
Definition truthy (s : string) : bool := negb (String.eqb s "").

(** [f"{o}"] for an optional string. *)
Definition format_opt (o : option string) : string :=
  match o with
  | None => "None"
  | Some s => s
  end.

(** [str(n)] for an integer. *)
Definition str_of_int (n : Z) : string := NilZero.string_of_int (Z.to_int n).

Definition between (lo hi : nat) (c : ascii) : bool :=
  (lo <=? nat_of_ascii c)%nat && (nat_of_ascii c <=? hi)%nat.

(** [c.lower()] on the code points below 256: the ASCII capitals and the
    Latin-1 capitals other than the multiplication sign move up by 32. *)
Definition lower_char (c : ascii) : ascii :=
  if between 65 90 c || (between 192 222 c && negb (nat_of_ascii c =? 215)%nat)
  then ascii_of_nat (nat_of_ascii c + 32)
  else c.

(** [s.lower()] *)
Fixpoint lower (s : string) : string :=
  match s with
  | EmptyString => EmptyString
  | String c s' => String (lower_char c) (lower s')
  end.

(** [sep.join(l)] *)
Fixpoint join (sep : string) (l : list string) : string :=
  match l with
  | [] => ""
  | [x] => x
  | x :: rest => x ++ sep ++ join sep rest
  end.

End PyStr.
Import PyStr.

(** ** Exceptions, log records and the validator monad *)

(** The exception classes that occur.  [OSError] stands for the class and
    its subclasses; [socket.error] is an alias of it. *)
Inductive exn_class : Type :=
| FatalError
| MatlabInstallError
| NetworkLicensingError
| OSError
| ValueError
| OverflowError
| KeyError.

Record exn : Type := Exn {
  exn_class_of : exn_class;
  exn_msg : string;
  exn_errno : option Z
}.

Definition exn_class_eqb (a b : exn_class) : bool :=
  match a, b with
  | FatalError, FatalError
  | MatlabInstallError, MatlabInstallError
  | NetworkLicensingError, NetworkLicensingError
  | OSError, OSError
  | ValueError, ValueError
  | OverflowError, OverflowError
  | KeyError, KeyError => true
  | _, _ => false
  end.

(** [Cls(msg)] *)
Definition new_exn (c : exn_class) (msg : string) : exn := Exn c msg None.

Inductive level : Type := DEBUG | INFO | ERROR.

Definition log_record : Type := (level * string)%type.

Inductive outcome (A : Type) : Type :=
| Return (a : A)
| Raise (e : exn).
Arguments Return {A} a.
Arguments Raise {A} e.

(** A computation: the records logged, in order, and how it ended. *)
Definition M (A : Type) : Type := (list log_record * outcome A)%type.

Definition ret {A} (a : A) : M A := ([], Return a).
Definition raise {A} (e : exn) : M A := ([], Raise e).
Definition logger (lv : level) (msg : string) : M unit := ([(lv, msg)], Return tt).

Definition bind {A B} (m : M A) (k : A -> M B) : M B :=
  match m with
  | (l, Return a) => let (l', r) := k a in (l ++ l', r)
  | (l, Raise e) => (l, Raise e)
  end.

(** [try: m  except <classes accepted by catches> as e: handler e] *)
Definition try_except {A} (m : M A) (catches : exn -> bool) (handler : exn -> M A) : M A :=
  match m with
  | (l, Raise e) =>
      if catches e then let (l', r) := handler e in (l ++ l', r) else (l, Raise e)
  | _ => m
  end.

Definition result {A} (m : M A) : outcome A := snd m.
Definition logged {A} (m : M A) : list log_record := fst m.

Declare Scope py_scope.
Delimit Scope py_scope with py.
Notation "x <- m ;; k" := (bind m (fun x => k))
  (at level 61, m at next level, right associativity) : py_scope.
Notation "m ;; k" := (bind m (fun _ => k))
  (at level 61, right associativity) : py_scope.
Local Open Scope py_scope.

(** A statement executed only under a condition. *)
Definition when (b : bool) (m : M unit) : M unit := if b then m else ret tt.

(** ** The surroundings of the validators *)

Inductive platform : Type := Posix | Windows.

Record Env : Type := {
  (** [os.path.isfile] and [Path.is_file] *)
  isfile : string -> bool;
  (** [matlab_proxy.util.is_valid_path] *)
  is_valid_path : string -> bool;
  (** [root / name] of [pathlib] *)
  joinpath : string -> string -> string;
  (** the platform, which fixes the separator of license entries *)
  host_platform : platform;
  (** the builtin [int] on a string; [None] when it raises [ValueError] *)
  py_int : string -> option Z;
  (** the builtin [repr] on a string *)
  py_repr : string -> string;
  (** the answer of the operating system to binding a fresh TCP socket
      to the wildcard address at a port: [None] when the bind succeeds,
      the error number and the text of the [OSError] otherwise *)
  os_bind : Z -> option (Z * string);
  (** [errno.EADDRINUSE] *)
  EADDRINUSE : Z;
  (** [matlab_proxy.constants.VERSION_INFO_FILE_NAME] *)
  VERSION_INFO_FILE_NAME : string;
  (** [mwi_env.get_env_name_app_port()] and its siblings *)
  env_name_app_port : string;
  env_name_base_url : string;
  env_name_custom_matlab_root : string;
  (** [matlab_proxy.get_default_config_name()] *)
  default_config_name : string
}.

(** ** [validate_base_url] *)

Definition base_url_error_message (env : Env) : string :=
  "The value of environment variable " ++ env_name_base_url env
    ++ " must start with " ++ dquote ++ "/" ++ dquote ++ " ".

Definition validate_base_url (env : Env) (base_url : string) : M string :=
  if String.eqb base_url "" then ret ""
  else
    when (negb (startswith base_url "/"))
      (logger ERROR (base_url_error_message env) ;;
       raise (new_exn FatalError (base_url_error_message env))) ;;
    ret (if endswith base_url "/" then drop_last base_url else base_url).

(** The invariant of a base URL in the words of the specification: a
    non-empty value begins with a slash and does not end with one. *)
Definition base_url_invariant (u : string) : bool :=
  String.eqb u "" || (startswith u "/" && negb (endswith u "/")).

(** ** Regular expressions, as far as the validators use them *)

Module Regex.

Inductive re : Type :=
| Empty                      (* no string at all *)
| Eps                        (* the empty string *)
| Cls (p : ascii -> bool)    (* one character of a class *)
| Seq (r1 r2 : re)
| Alt (r1 r2 : re)
| Star (r : re)
| Plus (r : re).

(** The strings of a regular expression. *)
Inductive Matches : re -> string -> Prop :=
| MEps : Matches Eps ""
| MCls p c : p c = true -> Matches (Cls p) (String c "")
| MSeq r1 r2 s1 s2 : Matches r1 s1 -> Matches r2 s2 -> Matches (Seq r1 r2) (s1 ++ s2)
| MAltL r1 r2 s : Matches r1 s -> Matches (Alt r1 r2) s
| MAltR r1 r2 s : Matches r2 s -> Matches (Alt r1 r2) s
| MStar0 r : Matches (Star r) ""
| MStarS r s1 s2 : Matches r s1 -> Matches (Star r) s2 -> Matches (Star r) (s1 ++ s2)
| MPlus r s1 s2 : Matches r s1 -> Matches (Star r) s2 -> Matches (Plus r) (s1 ++ s2).

Fixpoint nullable (r : re) : bool :=
  match r with
  | Empty => false
  | Eps => true
  | Cls _ => false
  | Seq r1 r2 => nullable r1 && nullable r2
  | Alt r1 r2 => nullable r1 || nullable r2
  | Star _ => true
  | Plus r => nullable r
  end.

(** What is left of [r] after reading the character [c]. *)
Fixpoint deriv (c : ascii) (r : re) : re :=
  match r with
  | Empty => Empty
  | Eps => Empty
  | Cls p => if p c then Eps else Empty
  | Seq r1 r2 =>
      if nullable r1 then Alt (Seq (deriv c r1) r2) (deriv c r2)
      else Seq (deriv c r1) r2
  | Alt r1 r2 => Alt (deriv c r1) (deriv c r2)
  | Star r => Seq (deriv c r) (Star r)
  | Plus r => Seq (deriv c r) (Star r)
  end.

(** Does [r] match the whole of [s]? *)
Fixpoint fullmatch (r : re) (s : string) : bool :=
  match s with
  | EmptyString => nullable r
  | String c s' => fullmatch (deriv c r) s'
  end.

(** [re.search("^" r "$", s)] is not [None].  Without [re.MULTILINE] the
    caret matches at the start of the string only, and the dollar at its end
    or just before a newline that ends it. *)
Definition search_anchored (r : re) (s : string) : bool :=
  fullmatch r s || (endswith s nl && fullmatch r (drop_last s)).

(** [re.split(p, s)] for a pattern [p] whose matches are exactly the single
    characters accepted by [is_sep]. *)
Fixpoint split (is_sep : ascii -> bool) (s : string) : list string :=
  match s with
  | EmptyString => [""]
  | String c s' =>
      if is_sep c then "" :: split is_sep s'
      else match split is_sep s' with
           | [] => [String c ""]
           | tok :: toks => String c tok :: toks
           end
  end.

Definition is_char (a c : ascii) : bool := Ascii.eqb a c.

(** [[0-9]] *)
Definition digit (c : ascii) : bool := between 48 57 c.

(** [\w] on a [str] pattern: the alphanumeric characters and the underscore.
    Below 256 the alphanumeric characters are the ASCII letters and digits,
    the ordinal indicators, the micro sign, the superscripts one to three,
    the vulgar fractions and the Latin-1 letters. *)
Definition word (c : ascii) : bool :=
  between 48 57 c || between 65 90 c || between 97 122 c || is_char "_" c
  || is_char (ascii_of_nat 170) c || between 178 179 c || is_char (ascii_of_nat 181) c
  || between 185 186 c || between 188 190 c
  || between 192 214 c || between 216 246 c || between 248 255 c.

End Regex.
Import Regex.

(** ** Python dictionaries: association lists in insertion order *)

Module Dict.

Definition dict (V : Type) : Type := list (string * V).

(** [d.get(k)] *)
Fixpoint get {V} (d : dict V) (k : string) : option V :=
  match d with
  | [] => None
  | (k', v) :: d' => if String.eqb k' k then Some v else get d' k
  end.

(** [k in d] *)
Definition mem {V} (d : dict V) (k : string) : bool :=
  match get d k with
  | Some _ => true
  | None => false
  end.

(** [d[k] = v]: a key already present keeps its place. *)
Fixpoint set {V} (d : dict V) (k : string) (v : V) : dict V :=
  match d with
  | [] => [(k, v)]
  | (k', v') :: d' =>
      if String.eqb k' k then (k', v) :: d' else (k', v') :: set d' k v
  end.

(** [d.keys()] *)
Definition keys {V} (d : dict V) : list string := map fst d.

End Dict.
Import Dict.

(** [repr] of a list of strings. *)
Definition repr_list (env : Env) (l : list string) : string :=
  "[" ++ join ", " (map (py_repr env) l) ++ "]".

(** [d[k]], which raises [KeyError] on a missing key. *)
Definition getitem {V} (env : Env) (d : dict V) (k : string) : M V :=
  match Dict.get d k with
  | Some v => ret v
  | None => raise (new_exn KeyError (py_repr env k))
  end.

(** [for x in l: body x] *)
Fixpoint for_each {A} (l : list A) (body : A -> M unit) : M unit :=
  match l with
  | [] => ret tt
  | x :: rest => body x ;; for_each rest body
  end.

(** ** [validate_mlm_license_file] *)

(** Modelled from the spec: [system.get_mlm_license_file_seperator], which is
    not among the sources; the server separator is [:] on POSIX-like
    platforms and [;] on Windows. *)
Definition get_mlm_license_file_seperator (env : Env) : ascii :=
  match host_platform env with
  | Posix => ":"%char
  | Windows => ";"%char
  end.

(** [(\w|\_|\-|\.)] *)
Definition host_char : re :=
  Alt (Cls word) (Alt (Cls (is_char "_")) (Alt (Cls (is_char "-")) (Cls (is_char ".")))).

(** The pattern ["(^[0-9]+[@](\w|\_|\-|\.)+$)"] between its anchors. *)
Definition nlm_connection_str_regex : re :=
  Seq (Plus (Cls digit)) (Seq (Cls (is_char "@")) (Plus host_char)).

Definition mlm_error_message (nlm_connections_str : string) : string :=
  "MLM_LICENSE_FILE validation failed for " ++ nlm_connections_str ++ ". "
  ++ "If set, the MLM_LICENSE_FILE environment variable must contain server names (each of the form port@hostname) separated by ':' on unix or ';' on windows(server triads however must be comma seperated)"
  ++ " OR path to a valid license file.".

(** The pattern [f"{seperator}|,"] matches one character: the separator or
    a comma. *)
Definition is_seperator (env : Env) (c : ascii) : bool :=
  is_char (get_mlm_license_file_seperator env) c || is_char "," c.

(** The body of the loop over the parts of the connection string. *)
Definition validate_nlm_part (env : Env) (nlm_connections_str nlm_connection_str : string)
  : M unit :=
  if isfile env nlm_connection_str then
    logger INFO (nlm_connections_str ++ " is a path to a file. MATLAB will attempt to use it.")
  else if search_anchored nlm_connection_str_regex nlm_connection_str then
    logger DEBUG ("Successfully validated " ++ nlm_connection_str)
  else
    logger ERROR ("Failed to validate:" ++ nlm_connection_str) ;;
    logger ERROR "NLM_info is not of the form port@hostname or a valid path to a file" ;;
    raise (new_exn NetworkLicensingError (mlm_error_message nlm_connections_str)).

Definition validate_mlm_license_file (env : Env) (nlm_connections_str : option string)
  : M (option string) :=
  match nlm_connections_str with
  | None => ret None
  | Some s =>
      if negb (truthy s) then ret None
      else
        let nlm_connection_strs := split (is_seperator env) s in
        logger DEBUG "Validating individual parts of the environment variable MLM_LICENSE_FILE" ;;
        for_each nlm_connection_strs (validate_nlm_part env s) ;;
        ret (Some s)
  end.

(** The grammar of a server name in the words of the specification: one or
    more digits, an at sign, and one or more characters that are each a word
    character, an underscore, a hyphen or a full stop. *)
Fixpoint all_chars (p : ascii -> bool) (s : string) : bool :=
  match s with
  | EmptyString => true
  | String c s' => p c && all_chars p s'
  end.

Definition host_class (c : ascii) : bool :=
  word c || is_char "_" c || is_char "-" c || is_char "." c.

Definition port_at_hostname (s : string) : Prop :=
  exists port host,
    s = (port ++ "@" ++ host)%string
    /\ port <> "" /\ all_chars digit port = true
    /\ host <> "" /\ all_chars host_class host = true.

(** [r] matches exactly the one-character strings whose character is in [q]. *)
Definition one_char (r : re) (q : ascii -> bool) : Prop :=
  forall s, Matches r s <-> exists c, s = String c "" /\ q c = true.

(** A part passes when it is a file or matches the pattern. *)
Definition nlm_part_ok (env : Env) (tok : string) : bool :=
  isfile env tok || search_anchored nlm_connection_str_regex tok.

(** ** [validate_app_port_is_free] *)

(** A port is handed over as a string or as an integer. *)
Inductive port_value : Type :=
| PortStr (s : string)
| PortInt (n : Z).

(** [f"{port}"] *)
Definition format_port (port : port_value) : string :=
  match port with
  | PortStr s => s
  | PortInt n => str_of_int n
  end.

(** [int(port)] *)
Definition int_of_port (env : Env) (port : port_value) : M Z :=
  match port with
  | PortInt n => ret n
  | PortStr s =>
      match py_int env s with
      | Some n => ret n
      | None =>
          raise (new_exn ValueError
                   ("invalid literal for int() with base 10: " ++ py_repr env s))
      end
  end.

(** [s = socket.socket(AF_INET, SOCK_STREAM); s.bind(("", n)); s.close()].
    Creating and closing the socket are taken to succeed.  The socket module
    refuses a port outside 0..65535 with [OverflowError] before it asks the
    operating system; a refusal of the operating system is an [OSError]
    carrying its error number. *)
Definition socket_bind (env : Env) (n : Z) : M unit :=
  if (0 <=? n)%Z && (n <=? 65535)%Z then
    match os_bind env n with
    | None => ret tt
    | Some (errno, strerror) => raise (Exn OSError strerror (Some errno))
    end
  else raise (new_exn OverflowError "bind(): port must be 0-65535.").

Definition port_error_message (env : Env) (port : port_value) : string :=
  "The port " ++ format_port port
  ++ " is not available. Please set another value for the environment variable "
  ++ env_name_app_port env.

(** [except socket.error as e], which is [except OSError as e] *)
Definition is_OSError (e : exn) : bool := exn_class_eqb (exn_class_of e) OSError.

(** [e.errno == code] *)
Definition errno_is (e : exn) (code : Z) : bool :=
  match exn_errno e with
  | Some n => (n =? code)%Z
  | None => false
  end.

Definition validate_app_port_is_free (env : Env) (port : option port_value)
  : M (option port_value) :=
  match port with
  | None =>
      logger DEBUG ("Environment variable " ++ env_name_app_port env
                    ++ " was not set. Will use a random port at launch.") ;;
      ret port
  | Some p =>
      try_except
        (n <- int_of_port env p ;;
         socket_bind env n ;;
         ret port)
        is_OSError
        (fun e =>
           if errno_is e (EADDRINUSE env) then
             logger ERROR (port_error_message env p) ;;
             raise (new_exn FatalError (port_error_message env p))
           else raise e)
  end.

(** The number that [int(port)] yields, if any. *)
Definition port_number (env : Env) (port : port_value) : option Z :=
  match port with
  | PortInt n => Some n
  | PortStr s => py_int env s
  end.

(** The bind attempt for [port] fails with address-in-use. *)
Definition bind_fails_in_use (env : Env) (port : port_value) : Prop :=
  exists n e,
    port_number env port = Some n
    /\ result (socket_bind env n) = Raise e
    /\ is_OSError e = true /\ errno_is e (EADDRINUSE env) = true.

(** ** [validate_env_config] *)

(** [__get_configs()].  [entry_points] is what
    [pkg_resources.iter_entry_points] yields for the group of the package:
    the name of each entry point with the dictionary it loads. *)
Definition __get_configs {V} (entry_points : list (string * dict V)) : dict (dict V) :=
  fold_left
    (fun configs entry_point =>
       Dict.set configs (lower (fst entry_point)) (snd entry_point))
    entry_points [].

Definition config_missing_key_message (key config : string) : string :=
  key ++ " missing in the provided " ++ config ++ " configuration".

Definition config_invalid_message {V} (env : Env) (config : string)
    (available_configs : dict (dict V)) : string :=
  config ++ " is not a valid config. Available configs are : "
  ++ repr_list env (Dict.keys available_configs).

Definition validate_env_config {V} (env : Env) (entry_points : list (string * dict V))
    (config : string) : M (dict V) :=
  let available_configs := __get_configs entry_points in
  let config := lower config in
  if Dict.mem available_configs config then
    default_config <- getitem env available_configs (default_config_name env) ;;
    let default_config_keys := Dict.keys default_config in
    env_config <- getitem env available_configs config ;;
    for_each default_config_keys
      (fun key =>
         when (negb (Dict.mem env_config key))
           (logger ERROR (config_missing_key_message key config) ;;
            raise (new_exn FatalError (config_missing_key_message key config)))) ;;
    logger DEBUG ("Successfully validated provided " ++ config ++ " configuration") ;;
    ret env_config
  else
    logger ERROR (config_invalid_message env config available_configs) ;;
    raise (new_exn FatalError (config_invalid_message env config available_configs)).

(** ** [validate_ssl_cert_file] and [validate_ssl_key_and_cert_file] *)

Definition ssl_cert_not_a_file_message (a_ssl_cert_file : string) : string :=
  "MWI_SSL_CERT_FILE is not a valid file: " ++ a_ssl_cert_file.

Definition ssl_key_not_a_file_message (a_ssl_key_file : string) : string :=
  "MWI_SSL_KEY_FILE is not a valid file: " ++ a_ssl_key_file.

Definition ssl_cert_required_message : string :=
  "MWI_SSL_CERT_FILE must be provided to use the MWI_SSL_KEY_FILE".

Definition validate_ssl_cert_file (env : Env) (a_ssl_cert_file : option string)
  : M (option string) :=
  match a_ssl_cert_file with
  | Some f =>
      when (truthy f)
        (when (negb (isfile env f))
           (logger ERROR (ssl_cert_not_a_file_message f) ;;
            raise (new_exn FatalError (ssl_cert_not_a_file_message f))))
  | None => ret tt
  end ;;
  ret a_ssl_cert_file.

Definition is_none {A} (o : option A) : bool :=
  match o with
  | None => true
  | Some _ => false
  end.

Definition validate_ssl_key_and_cert_file (env : Env)
    (a_ssl_key_file a_ssl_cert_file : option string)
  : M (option string * option string) :=
  if is_none a_ssl_cert_file && is_none a_ssl_key_file then
    ret (a_ssl_key_file, a_ssl_cert_file)
  else
    cert_file <- validate_ssl_cert_file env a_ssl_cert_file ;;
    when (is_none cert_file && negb (is_none a_ssl_key_file))
      (logger ERROR ssl_cert_required_message ;;
       raise (new_exn FatalError ssl_cert_required_message)) ;;
    when (is_none a_ssl_key_file && negb (is_none cert_file))
      (logger INFO ("MWI_SSL_KEY_FILE is not provided, ensure that your MWI_SSL_CERT_FILE : '"
                    ++ format_opt cert_file ++ "' contains a private key")) ;;
    match a_ssl_key_file with
    | Some k =>
        when (truthy k)
          (when (negb (isfile env k))
             (logger ERROR (ssl_key_not_a_file_message k) ;;
              raise (new_exn FatalError (ssl_key_not_a_file_message k))))
    | None => ret tt
    end ;;
    logger INFO ("SSL Keys provided were: MWI_SSL_CERT_FILE: " ++ format_opt a_ssl_cert_file
                 ++ " & MWI_SSL_KEY_FILE: " ++ format_opt a_ssl_key_file) ;;
    ret (a_ssl_key_file, a_ssl_cert_file).

(** ** [terminate_on_invalid_matlab_root_path] *)

(** A [pathlib.Path] is the string it prints as. *)
Definition __validate_if_paths_exist (env : Env) (paths : list string) : M (list string) :=
  for_each paths
    (fun path =>
       when (negb (is_valid_path env path))
         (raise (new_exn OSError ("Supplied invalid path:" ++ path)))) ;;
  ret paths.

(** The text built before any check. *)
Definition matlab_root_error_string (env : Env) (matlab_root : string)
    (is_custom_matlab_root : bool) : string :=
  "Unable to find MATLAB at: " ++ matlab_root
  ++ (if is_custom_matlab_root
      then nl ++ "Edit the environment variable " ++ env_name_custom_matlab_root env
           ++ " to the correct path, and restart matlab-proxy."
      else nl ++ "Update your system PATH, and restart matlab-proxy.").

(** The text handed to the logger when the version file is missing. *)
Definition matlab_root_log_error_string (env : Env) (matlab_root : string)
    (is_custom_matlab_root : bool) : string :=
  matlab_root_error_string env matlab_root is_custom_matlab_root
  ++ "Failed to locate " ++ VERSION_INFO_FILE_NAME env ++ " at this location.".

(** The check [version_info_file_path.is_file()] is read as [isfile]: it is
    taken to answer.  [Path.is_file] raises the [OSError] of a path that may
    not be examined (permission denied, say), and as the call stands outside
    the [try], that error would leave the function as it is; this case is
    not modelled, and no statement below speaks of it. *)
Definition terminate_on_invalid_matlab_root_path (env : Env) (matlab_root : string)
    (is_custom_matlab_root : bool) : M string :=
  let error_string := matlab_root_error_string env matlab_root is_custom_matlab_root in
  try_except
    (__validate_if_paths_exist env [matlab_root] ;;
     logger DEBUG ("Specified MATLAB root path:" ++ matlab_root
                   ++ " exists, continuing to verify its validity..."))
    is_OSError
    (fun exc =>
       logger ERROR (join ". " [exn_msg exc]) ;;
       raise (new_exn MatlabInstallError error_string)) ;;
  let version_info_file_path := joinpath env matlab_root (VERSION_INFO_FILE_NAME env) in
  when (negb (isfile env version_info_file_path))
    (let log_error_string :=
       matlab_root_log_error_string env matlab_root is_custom_matlab_root in
     logger ERROR log_error_string ;;
     raise (new_exn MatlabInstallError error_string)) ;;
  ret matlab_root.

(** ** [validate_use_existing_licensing] *)

(** The code points of a string. *)
Definition code_points (s : string) : list N := map N_of_ascii (list_ascii_of_string s).

(** [c.casefold()] on the code points below 256: as [c.lower()], except that
    the sharp s becomes two letters s and the micro sign becomes the Greek
    letter mu, which lies above 255; hence the result in code points. *)
Definition casefold_char (c : ascii) : list N :=
  if (nat_of_ascii c =? 223)%nat then [115; 115]%N
  else if (nat_of_ascii c =? 181)%nat then [956]%N
  else [N_of_ascii (lower_char c)].

(** [s.casefold()] *)
Fixpoint casefold (s : string) : list N :=
  match s with
  | EmptyString => []
  | String c s' => casefold_char c ++ casefold s'
  end.

Fixpoint code_points_eqb (a b : list N) : bool :=
  match a, b with
  | [], [] => true
  | x :: a', y :: b' => (x =? y)%N && code_points_eqb a' b'
  | _, _ => false
  end.

Definition validate_use_existing_licensing (use_existing_license : string) : bool :=
  if code_points_eqb (casefold use_existing_license) (code_points "true")
  then true else false.

(** ** A concrete environment for examples *)

Module Sample.

(** A POSIX host with a key, a certificate and one MATLAB installation on
    disk, port 8080 taken and the ports below 1024 reserved. *)
Definition env : Env := {|
  isfile := fun p =>
    String.eqb p "/tmp/real.key" || String.eqb p "/tmp/real.crt"
    || String.eqb p "/opt/matlab/VersionInfo.xml";
  is_valid_path := fun p =>
    String.eqb p "/opt/matlab" || String.eqb p "/opt/empty"
    || String.eqb p "/tmp/real.key" || String.eqb p "/tmp/real.crt"
    || String.eqb p "/opt/matlab/VersionInfo.xml";
  joinpath := fun root name => (root ++ "/" ++ name)%string;
  host_platform := Posix;
  py_int := fun s =>
    if String.eqb s "" then None
    else option_map Z.of_int (NilZero.int_of_string s);
  py_repr := fun s => ("'" ++ s ++ "'")%string;
  os_bind := fun n =>
    if (n =? 8080)%Z then Some (98%Z, "Address already in use")
    else if (n <? 1024)%Z then Some (13%Z, "Permission denied")
    else None;
  EADDRINUSE := 98%Z;
  VERSION_INFO_FILE_NAME := "VersionInfo.xml";
  env_name_app_port := "MWI_APP_PORT";
  env_name_base_url := "MWI_BASE_URL";
  env_name_custom_matlab_root := "MWI_CUSTOM_MATLAB_ROOT";
  default_config_name := "default_configuration_matlab_proxy"
|}.

(** Two registered profiles; the second lacks a key of the default. *)
Definition entry_points : list (string * dict string) :=
  [ ("default_configuration_matlab_proxy",
     [("extension_name", "matlab-proxy"); ("doc_url", "https://example.org/doc")]);
    ("Cloud", [("extension_name", "cloud"); ("doc_url", "https://example.org/cloud");
               ("region", "eu")]);
    ("Broken", [("extension_name", "broken")]) ].

End Sample.

(** * Properties *)

Unset Implicit Arguments.

(** ** Strings *)

Lemma append_assoc (a b c : string) : ((a ++ b) ++ c)%string = (a ++ (b ++ c))%string.
Proof. induction a as [|x a IH]; simpl; [reflexivity | now rewrite IH]. Qed.

Lemma endswith_spec (s p : string) :
  endswith s p = true <-> exists t, s = (t ++ p)%string.
Proof.
  split.
  - induction s as [|c s IH].
    + destruct p; [now exists "" | discriminate].
    + cbn [endswith]. destruct (String.eqb_spec (String c s) p) as [E|_].
      * intros _. exists "". now rewrite <- E.
      * intros H. destruct (IH H) as [t ->]. now exists (String c t).
  - intros [t ->]. induction t as [|c t IH].
    + destruct p; cbn [append endswith]; now rewrite String.eqb_refl.
    + change (String c t ++ p)%string with (String c (t ++ p)).
      cbn [endswith]. rewrite IH. now destruct (String.eqb _ _).
Qed.

Lemma drop_last_snoc (t : string) (c : ascii) :
  drop_last (t ++ String c "") = t.
Proof.
  induction t as [|a t IH]; simpl; [reflexivity|].
  rewrite IH. now destruct t.
Qed.

Lemma snoc_inj (a b : string) (c : ascii) :
  (a ++ String c "")%string = (b ++ String c "")%string -> a = b.
Proof.
  intros H. rewrite <- (drop_last_snoc a c), <- (drop_last_snoc b c). now rewrite H.
Qed.

Lemma startswith_cons (c : ascii) (s : string) (a : ascii) :
  startswith (String c s) (String a "") = true <-> c = a.
Proof.
  unfold startswith; simpl. destruct (ascii_dec a c) as [->|N].
  - destruct s; now split.
  - split; [discriminate | intros ->; contradiction].
Qed.

Lemma length_append (a b : string) :
  String.length (a ++ b) = (String.length a + String.length b)%nat.
Proof. induction a as [|c a IH]; simpl; [reflexivity | now rewrite IH]. Qed.

Lemma snoc_neq (t : string) (c : ascii) : (t ++ String c "")%string <> t.
Proof.
  intros H. apply (f_equal String.length) in H. rewrite length_append in H.
  simpl in H. lia.
Qed.

(** ** The monad *)

Lemma result_bind {A B} (m : M A) (k : A -> M B) :
  result (bind m k) =
  match result m with
  | Return a => result (k a)
  | Raise e => Raise e
  end.
Proof.
  destruct m as [l [a|e]]; simpl; [|reflexivity].
  unfold result. now destruct (k a).
Qed.

(** ** [validate_base_url] *)

(** What [validate_base_url] returns or raises, without the log. *)
Lemma validate_base_url_result (env : Env) (x : string) :
  result (validate_base_url env x) =
  if String.eqb x "" then Return ""
  else if startswith x "/" then
         Return (if endswith x "/" then drop_last x else x)
       else Raise (new_exn FatalError (base_url_error_message env)).
Proof.
  unfold validate_base_url.
  destruct (String.eqb x ""); [reflexivity|].
  rewrite result_bind. now destruct (startswith x "/").
Qed.

Lemma endswith_snoc_twice (u : string) (c : ascii) :
  endswith (u ++ String c "") (String c (String c "")) = endswith u (String c "").
Proof.
  apply Bool.eq_true_iff_eq. rewrite !endswith_spec. split.
  - intros [t E]. exists t.
    change (String c (String c "")) with (String c "" ++ String c "")%string in E.
    rewrite <- append_assoc in E. now apply snoc_inj in E.
  - intros [t ->]. exists t. now rewrite append_assoc.
Qed.

Lemma endswith_twice_once (x : string) (c : ascii) :
  endswith x (String c (String c "")) = true -> endswith x (String c "") = true.
Proof.
  rewrite !endswith_spec. intros [t ->]. exists (t ++ String c "")%string.
  now rewrite append_assoc.
Qed.

(** The three ways in which [validate_base_url] returns. *)
Lemma validate_base_url_returns (env : Env) (x y : string) :
  result (validate_base_url env x) = Return y ->
  (x = "" /\ y = "")
  \/ (startswith x "/" = true /\ endswith x "/" = false /\ y = x)
  \/ (startswith x "/" = true /\ x = (y ++ "/")%string).
Proof.
  rewrite validate_base_url_result.
  destruct (String.eqb_spec x "") as [->|N].
  - intros [= <-]. now left.
  - destruct (startswith x "/") eqn:S; [|discriminate].
    destruct (endswith x "/") eqn:E; intros [= <-].
    + right; right. split; [reflexivity|].
      apply endswith_spec in E. destruct E as [t ->].
      now rewrite drop_last_snoc.
    + right; left. now repeat split.
Qed.

(** C3, as stated, fails: ["//"] is normalised to ["/"], and ["/"] to the
    empty string. *)
Lemma validate_base_url_not_idempotent :
  exists y z,
    result (validate_base_url Sample.env "//") = Return y
    /\ result (validate_base_url Sample.env y) = Return z
    /\ z <> y.
Proof. exists "/", "". repeat split; discriminate. Qed.

(** C3 (amended): on its own successful output [validate_base_url] succeeds
    again, and it returns that output unchanged exactly when the first
    input did not end with two slashes: one call removes one slash. *)
Theorem validate_base_url_twice (env : Env) (x y : string) :
  result (validate_base_url env x) = Return y ->
  exists z,
    result (validate_base_url env y) = Return z
    /\ (z = y <-> endswith x "//" = false).
Proof.
  intros H. destruct (validate_base_url_returns _ _ _ H) as [[-> ->]|[(S & E & ->)|(S & ->)]].
  - exists "". split; [reflexivity|]. now split.
  - exists x. split; [exact H|]. split; [intros _|reflexivity].
    destruct (endswith x "//") eqn:D; [|reflexivity].
    apply endswith_twice_once in D. congruence.
  - rewrite endswith_snoc_twice. rewrite validate_base_url_result.
    destruct y as [|c y]; [exists ""; now split|].
    apply startswith_cons in S. subst c.
    replace (startswith (String "/" y) "/") with true
      by (symmetry; now apply startswith_cons).
    cbn [String.eqb]. 
    destruct (endswith (String "/" y) "/") eqn:E.
    + eexists; split; [reflexivity|]. split; [|discriminate].
      intros D. exfalso. apply endswith_spec in E. destruct E as [t E].
      rewrite E, drop_last_snoc in D. now apply (snoc_neq t "/").
    + eexists; split; [reflexivity|]. now split.
Qed.

(** The theorem at [/matlab/]. *)
Lemma validate_base_url_twice_witness :
  exists z,
    result (validate_base_url Sample.env "/matlab") = Return z
    /\ (z = "/matlab" <-> endswith "/matlab/" "//" = false).
Proof. apply (validate_base_url_twice Sample.env "/matlab/"). reflexivity. Defined.

(** C4, as stated, fails: the value returned for two slashes is not empty
    and ends with a slash. *)
Lemma validate_base_url_keeps_a_slash :
  exists y,
    result (validate_base_url Sample.env "//") = Return y
    /\ base_url_invariant y = false.
Proof. exists "/". split; reflexivity. Qed.

(** C4 (amended): a value returned by [validate_base_url] begins with a
    slash when it is not empty; it ends with a slash exactly when the input
    ended with two; and it is the empty string exactly for the inputs that
    are the empty string or the single slash. *)
Theorem validate_base_url_shape (env : Env) (x y : string) :
  result (validate_base_url env x) = Return y ->
  (y <> "" -> startswith y "/" = true)
  /\ (endswith y "/" = true <-> endswith x "//" = true)
  /\ (y = "" <-> x = "" \/ x = "/").
Proof.
  intros H. destruct (validate_base_url_returns _ _ _ H) as [[-> ->]|[(S & E & ->)|(S & ->)]].
  - split; [intros N; now contradiction N|].
    split; [split; discriminate|]. split; auto.
  - split; [intros _; exact S|]. split; [split|split].
    + rewrite E. discriminate.
    + apply endswith_twice_once.
    + intros ->. discriminate.
    + intros [->| ->]; discriminate.
  - rewrite endswith_snoc_twice. split; [|split; [reflexivity|split]].
    + intros N. destruct y as [|c y]; [contradiction|].
      apply startswith_cons in S. subst c. now apply startswith_cons.
    + intros ->. now right.
    + intros [E|E]; [destruct y; discriminate|].
      destruct y as [|c [|d y]]; [reflexivity|discriminate|discriminate].
Qed.

(** The theorem at [/matlab/]. *)
Lemma validate_base_url_shape_witness :
  ("/matlab" <> "" -> startswith "/matlab" "/" = true)
  /\ (endswith "/matlab" "/" = true <-> endswith "/matlab/" "//" = true)
  /\ ("/matlab" = "" <-> "/matlab/" = "" \/ "/matlab/" = "/").
Proof. apply (validate_base_url_shape Sample.env "/matlab/"). reflexivity. Defined.

(** ** Regular expressions: the matcher decides [Matches] *)

Lemma append_eq_nil (a b : string) : (a ++ b)%string = "" -> a = "" /\ b = "".
Proof. destruct a; simpl; [auto | discriminate]. Qed.

Lemma append_eq_cons (a b : string) (c : ascii) (s : string) :
  (a ++ b)%string = String c s ->
  (a = "" /\ b = String c s) \/ (exists a', a = String c a' /\ s = (a' ++ b)%string).
Proof.
  destruct a as [|x a]; simpl; [auto|].
  intros [= -> <-]. right. now exists a.
Qed.

Lemma Matches_Empty_inv (s : string) : ~ Matches Empty s.
Proof. intros H. inversion H. Qed.

Lemma Matches_Eps_inv (s : string) : Matches Eps s -> s = "".
Proof. intros H. now inversion H. Qed.

Lemma Matches_Cls_inv (p : ascii -> bool) (s : string) :
  Matches (Cls p) s -> exists c, s = String c "" /\ p c = true.
Proof. intros H. inversion H; subst. now exists c. Qed.

Lemma Matches_Seq_inv (r1 r2 : re) (s : string) :
  Matches (Seq r1 r2) s ->
  exists s1 s2, s = (s1 ++ s2)%string /\ Matches r1 s1 /\ Matches r2 s2.
Proof. intros H. inversion H; subst. now exists s1, s2. Qed.

Lemma Matches_Alt_inv (r1 r2 : re) (s : string) :
  Matches (Alt r1 r2) s -> Matches r1 s \/ Matches r2 s.
Proof. intros H. inversion H; subst; auto. Qed.

Lemma Matches_Plus_inv (r : re) (s : string) :
  Matches (Plus r) s ->
  exists s1 s2, s = (s1 ++ s2)%string /\ Matches r s1 /\ Matches (Star r) s2.
Proof. intros H. inversion H; subst. now exists s1, s2. Qed.

Lemma nullable_spec (r : re) : nullable r = true <-> Matches r "".
Proof.
  split.
  - induction r; simpl; intros H; try discriminate.
    + constructor.
    + apply andb_prop in H. destruct H as [H1 H2].
      change "" with ("" ++ "")%string. constructor; auto.
    + apply orb_prop in H. destruct H as [H|H]; [apply MAltL | apply MAltR]; auto.
    + constructor.
    + change "" with ("" ++ "")%string. constructor; [auto | constructor].
  - intros H. remember "" as s eqn:E. induction H; simpl; try discriminate; auto.
    + apply append_eq_nil in E. destruct E. rewrite IHMatches1, IHMatches2; auto.
    + rewrite IHMatches; auto.
    + rewrite IHMatches, orb_true_r; auto.
    + apply append_eq_nil in E. destruct E. auto.
Qed.

(** A non-empty string of [Star r] starts with a non-empty string of [r]. *)
Lemma Matches_Star_cons (r : re) (c : ascii) (s : string) :
  Matches (Star r) (String c s) ->
  exists s1 s2,
    s = (s1 ++ s2)%string /\ Matches r (String c s1) /\ Matches (Star r) s2.
Proof.
  intros H. remember (Star r) as r' eqn:Er. remember (String c s) as w eqn:Ew.
  revert s Ew. induction H; intros s0 Ew; try discriminate.
  injection Er as ->.
  apply append_eq_cons in Ew. destruct Ew as [[-> ->]|(a' & -> & ->)].
  - now apply IHMatches2.
  - now exists a', s2.
Qed.

Lemma deriv_spec (c : ascii) (r : re) :
  forall s, Matches (deriv c r) s <-> Matches r (String c s).
Proof.
  induction r as [| |p|r1 IH1 r2 IH2|r1 IH1 r2 IH2|r IH|r IH]; intros s; simpl.
  - split; intros H; now apply Matches_Empty_inv in H.
  - split; intros H; [now apply Matches_Empty_inv in H|].
    apply Matches_Eps_inv in H. discriminate.
  - destruct (p c) eqn:P; split; intros H.
    + apply Matches_Eps_inv in H. subst. now constructor.
    + apply Matches_Cls_inv in H. destruct H as (c' & [= <- ->] & _). constructor.
    + now apply Matches_Empty_inv in H.
    + apply Matches_Cls_inv in H. destruct H as (c' & [= <- ->] & P'). congruence.
  - assert (L : Matches (Seq (deriv c r1) r2) s -> Matches (Seq r1 r2) (String c s)).
    { intros H. apply Matches_Seq_inv in H. destruct H as (s1 & s2 & -> & H1 & H2).
      change (String c (s1 ++ s2)) with (String c s1 ++ s2)%string.
      constructor; [now apply IH1 | assumption]. }
    assert (R : Matches (Seq r1 r2) (String c s) ->
                Matches (Seq (deriv c r1) r2) s
                \/ (Matches r1 "" /\ Matches (deriv c r2) s)).
    { intros H. apply Matches_Seq_inv in H. destruct H as (s1 & s2 & E & H1 & H2).
      symmetry in E. apply append_eq_cons in E.
      destruct E as [[-> ->]|(a' & -> & ->)].
      - right. split; [assumption | now apply IH2].
      - left. constructor; [now apply IH1 | assumption]. }
    destruct (nullable r1) eqn:N; split; intros H.
    + apply Matches_Alt_inv in H. destruct H as [H|H]; [now apply L|].
      change (String c s) with ("" ++ String c s)%string.
      constructor; [now apply nullable_spec | now apply IH2].
    + destruct (R H) as [H'|[_ H']]; [now apply MAltL | now apply MAltR].
    + now apply L.
    + destruct (R H) as [H'|[H' _]]; [assumption|].
      apply nullable_spec in H'. congruence.
  - split; intros H; apply Matches_Alt_inv in H;
      (destruct H as [H|H]; [apply MAltL; now apply IH1 | apply MAltR; now apply IH2]).
  - split; intros H.
    + apply Matches_Seq_inv in H. destruct H as (s1 & s2 & -> & H1 & H2).
      change (String c (s1 ++ s2)) with (String c s1 ++ s2)%string.
      constructor; [now apply IH | assumption].
    + apply Matches_Star_cons in H. destruct H as (s1 & s2 & -> & H1 & H2).
      constructor; [now apply IH | assumption].
  - split; intros H.
    + apply Matches_Seq_inv in H. destruct H as (s1 & s2 & -> & H1 & H2).
      change (String c (s1 ++ s2)) with (String c s1 ++ s2)%string.
      constructor; [now apply IH | assumption].
    + apply Matches_Plus_inv in H. destruct H as (s1 & s2 & E & H1 & H2).
      symmetry in E. apply append_eq_cons in E.
      destruct E as [[-> ->]|(a' & -> & ->)].
      * apply Matches_Star_cons in H2. destruct H2 as (t1 & t2 & -> & H3 & H4).
        constructor; [now apply IH | assumption].
      * constructor; [now apply IH | assumption].
Qed.

Lemma fullmatch_spec (s : string) : forall r, fullmatch r s = true <-> Matches r s.
Proof.
  induction s as [|c s IH]; intros r; simpl.
  - apply nullable_spec.
  - rewrite IH. apply deriv_spec.
Qed.

(** ** The pattern of a server name *)

Lemma one_char_Cls (p : ascii -> bool) : one_char (Cls p) p.
Proof.
  intros s. split.
  - apply Matches_Cls_inv.
  - intros (c & -> & H). now constructor.
Qed.

Lemma one_char_host_char : one_char host_char host_class.
Proof.
  intros s. unfold host_char, host_class. split.
  - intros H.
    repeat (apply Matches_Alt_inv in H; destruct H as [H|H]);
      apply Matches_Cls_inv in H; destruct H as (c & -> & H);
      exists c; rewrite H, ?orb_true_r; auto.
  - intros (c & -> & H).
    apply orb_prop in H. destruct H as [H|H]; [|now do 3 apply MAltR; constructor].
    apply orb_prop in H. destruct H as [H|H];
      [|now do 2 apply MAltR; apply MAltL; constructor].
    apply orb_prop in H. destruct H as [H|H];
      [now apply MAltL; constructor | now apply MAltR, MAltL; constructor].
Qed.

Lemma Matches_Star_one_char (r : re) (q : ascii -> bool) :
  one_char r q -> forall s, Matches (Star r) s <-> all_chars q s = true.
Proof.
  intros O s. split.
  - intros H. remember (Star r) as r' eqn:E. induction H; try discriminate; auto.
    injection E as ->. apply O in H. destruct H as (c & -> & Q).
    simpl. rewrite Q. now apply IHMatches2.
  - induction s as [|c s IH]; simpl; intros H; [constructor|].
    apply andb_prop in H. destruct H as [Q A].
    change (String c s) with (String c "" ++ s)%string.
    constructor; [apply O; now exists c | now apply IH].
Qed.

Lemma Matches_Plus_one_char (r : re) (q : ascii -> bool) :
  one_char r q ->
  forall s, Matches (Plus r) s <-> s <> "" /\ all_chars q s = true.
Proof.
  intros O s. split.
  - intros H. apply Matches_Plus_inv in H. destruct H as (s1 & s2 & -> & H1 & H2).
    apply O in H1. destruct H1 as (c & -> & Q).
    apply (Matches_Star_one_char _ _ O) in H2. simpl. rewrite Q, H2.
    split; [discriminate | reflexivity].
  - destruct s as [|c s]; intros [N H]; [contradiction|].
    simpl in H. apply andb_prop in H. destruct H as [Q A].
    change (String c s) with (String c "" ++ s)%string.
    constructor; [apply O; now exists c | now apply (Matches_Star_one_char _ _ O)].
Qed.

(** The pattern accepts exactly the grammar of the specification. *)
Lemma nlm_connection_str_regex_spec (s : string) :
  fullmatch nlm_connection_str_regex s = true <-> port_at_hostname s.
Proof.
  rewrite fullmatch_spec. unfold nlm_connection_str_regex, port_at_hostname. split.
  - intros H. apply Matches_Seq_inv in H. destruct H as (port & rest & -> & Hp & H).
    apply Matches_Seq_inv in H. destruct H as (at_ & host & -> & Ha & Hh).
    apply Matches_Cls_inv in Ha. destruct Ha as (c & -> & Ha).
    apply Ascii.eqb_eq in Ha. subst c.
    apply (Matches_Plus_one_char _ _ (one_char_Cls digit)) in Hp.
    apply (Matches_Plus_one_char _ _ one_char_host_char) in Hh.
    exists port, host. tauto.
  - intros (port & host & -> & Np & Dp & Nh & Dh).
    constructor; [now apply (Matches_Plus_one_char _ _ (one_char_Cls digit))|].
    constructor; [now constructor|].
    now apply (Matches_Plus_one_char _ _ one_char_host_char).
Qed.

(** With the anchors as Python reads them, a newline may follow. *)
Lemma search_anchored_nlm_spec (s : string) :
  search_anchored nlm_connection_str_regex s = true <->
  port_at_hostname s \/ exists t, s = (t ++ nl)%string /\ port_at_hostname t.
Proof.
  unfold search_anchored. rewrite orb_true_iff, andb_true_iff.
  rewrite !nlm_connection_str_regex_spec, endswith_spec. split.
  - intros [H|[[t ->] H]]; [now left|]. right. exists t.
    unfold nl in H. now rewrite drop_last_snoc in H.
  - intros [H|(t & -> & H)]; [now left|]. right. split; [now exists t|].
    unfold nl. now rewrite drop_last_snoc.
Qed.

(** ** Loops *)

(** A loop whose body either passes or raises one fixed exception raises it
    as soon as one element does not pass. *)
Lemma for_each_result {A} (ok : A -> bool) (e0 : exn) (body : A -> M unit) (l : list A) :
  (forall x, result (body x) = if ok x then Return tt else Raise e0) ->
  result (for_each l body) = if forallb ok l then Return tt else Raise e0.
Proof.
  intros B. induction l as [|x l IH]; simpl; [reflexivity|].
  rewrite result_bind, B. destruct (ok x); simpl; [exact IH | reflexivity].
Qed.

Lemma forallb_false {A} (f : A -> bool) (l : list A) :
  forallb f l = false <-> exists x, In x l /\ f x = false.
Proof.
  induction l as [|a l IH]; simpl.
  - split; [discriminate | intros (x & [] & _)].
  - rewrite andb_false_iff, IH. split.
    + intros [H|(x & I & H)]; [exists a | exists x]; auto.
    + intros (x & [->|I] & H); [now left | right; now exists x].
Qed.

(** ** [validate_mlm_license_file] *)

Lemma validate_nlm_part_result (env : Env) (s tok : string) :
  result (validate_nlm_part env s tok) =
  if nlm_part_ok env tok then Return tt
  else Raise (new_exn NetworkLicensingError (mlm_error_message s)).
Proof.
  unfold validate_nlm_part, nlm_part_ok.
  destruct (isfile env tok); [reflexivity|].
  destruct (search_anchored _ tok); reflexivity.
Qed.

Lemma validate_mlm_license_file_result (env : Env) (s : string) :
  s <> "" ->
  result (validate_mlm_license_file env (Some s)) =
  if forallb (nlm_part_ok env) (split (is_seperator env) s) then Return (Some s)
  else Raise (new_exn NetworkLicensingError (mlm_error_message s)).
Proof.
  intros N. unfold validate_mlm_license_file, truthy.
  destruct (String.eqb_spec s "") as [E|_]; [contradiction|]. cbn [negb].
  rewrite !result_bind. cbn [logger result snd].
  rewrite (for_each_result (nlm_part_ok env)
             (new_exn NetworkLicensingError (mlm_error_message s))).
  - now destruct (forallb _ _).
  - apply validate_nlm_part_result.
Qed.

(** X21: for a non-empty connection string, [validate_mlm_license_file]
    raises [NetworkLicensingError] if and only if one of the parts obtained
    by splitting at the platform separator and at commas is not a file, not
    a server name of the grammar, and not such a name followed by one
    newline; whatever it raises is that error, and its message quotes the
    whole input. *)
Theorem validate_mlm_license_file_fails_exactly (env : Env) (s : string) :
  s <> "" ->
  (result (validate_mlm_license_file env (Some s))
     = Raise (new_exn NetworkLicensingError (mlm_error_message s))
   <-> exists tok,
         In tok (split (is_seperator env) s)
         /\ isfile env tok = false
         /\ ~ port_at_hostname tok
         /\ ~ (exists t, tok = (t ++ nl)%string /\ port_at_hostname t))
  /\ (forall e,
        result (validate_mlm_license_file env (Some s)) = Raise e ->
        exn_class_of e = NetworkLicensingError
        /\ exists rest,
             exn_msg e = ("MLM_LICENSE_FILE validation failed for " ++ s ++ rest)%string).
Proof.
  intros N. rewrite (validate_mlm_license_file_result env s N).
  destruct (forallb (nlm_part_ok env) (split (is_seperator env) s)) eqn:F.
  - split; [split; [discriminate|] | discriminate].
    intros (tok & I & H1 & H2 & H3).
    rewrite forallb_forall in F. specialize (F tok I).
    unfold nlm_part_ok in F. rewrite H1 in F. cbn [orb] in F.
    apply search_anchored_nlm_spec in F. tauto.
  - split.
    + split; [intros _ | reflexivity].
      apply forallb_false in F. destruct F as (tok & I & H).
      exists tok. unfold nlm_part_ok in H. apply orb_false_iff in H.
      destruct H as [H1 H2]. split; [assumption|]. split; [assumption|].
      split; intros G;
        (assert (T : search_anchored nlm_connection_str_regex tok = true)
           by (apply search_anchored_nlm_spec; auto));
        congruence.
    + intros e [= <-]. split; [reflexivity|].
      unfold mlm_error_message. cbn [new_exn exn_msg]. eexists. reflexivity.
Qed.

(** An instance of the theorem. *)
Lemma validate_mlm_license_file_fails_exactly_witness :
  result (validate_mlm_license_file Sample.env (Some "27000@server1,"))
    = Raise (new_exn NetworkLicensingError (mlm_error_message "27000@server1,"))
  <-> exists tok,
        In tok (split (is_seperator Sample.env) "27000@server1,")
        /\ isfile Sample.env tok = false
        /\ ~ port_at_hostname tok
        /\ ~ (exists t, tok = (t ++ nl)%string /\ port_at_hostname t).
Proof.
  apply (validate_mlm_license_file_fails_exactly Sample.env "27000@server1,").
  discriminate.
Defined.

(** A string without separators is its own single part. *)
Lemma split_no_sep (is_sep : ascii -> bool) (s : string) :
  all_chars (fun c => negb (is_sep c)) s = true -> split is_sep s = [s].
Proof.
  induction s as [|c s IH]; simpl; [reflexivity|].
  intros H. apply andb_prop in H. destruct H as [N A].
  apply negb_true_iff in N. now rewrite N, (IH A).
Qed.

Lemma all_chars_app (p : ascii -> bool) (a b : string) :
  all_chars p (a ++ b) = all_chars p a && all_chars p b.
Proof. induction a as [|c a IH]; simpl; [reflexivity | now rewrite IH, andb_assoc]. Qed.

Lemma all_chars_impl (p q : ascii -> bool) (s : string) :
  (forall c, p c = true -> q c = true) -> all_chars p s = true -> all_chars q s = true.
Proof.
  intros I. induction s as [|c s IH]; simpl; [reflexivity|].
  intros H. apply andb_prop in H. destruct H as [P A]. now rewrite (I c P), IH.
Qed.

(** Neither separator nor the comma can occur in a server name or follow it
    as the closing newline. *)
Lemma is_seperator_not_in_grammar (env : Env) (c : ascii) :
  digit c || is_char "@" c || host_class c || is_char newline c = true ->
  negb (is_seperator env c) = true.
Proof.
  intros H. apply negb_true_iff. destruct (is_seperator env c) eqn:S; [|reflexivity].
  unfold is_seperator, get_mlm_license_file_seperator, is_char in S.
  apply orb_prop in S.
  destruct S as [S|S]; [destruct (host_platform env)|];
    apply Ascii.eqb_eq in S; subst c; discriminate H.
Qed.

Lemma port_at_hostname_no_sep (env : Env) (s : string) :
  port_at_hostname s ->
  s <> "" /\ all_chars (fun c => negb (is_seperator env c)) s = true.
Proof.
  intros (port & host & -> & Np & Dp & Nh & Dh). split.
  - destruct port; [contradiction | discriminate].
  - assert (Ap : all_chars (fun c => negb (is_seperator env c)) port = true).
    { apply (all_chars_impl digit); [|assumption].
      intros c H. apply is_seperator_not_in_grammar. now rewrite H. }
    assert (Ah : all_chars (fun c => negb (is_seperator env c)) host = true).
    { apply (all_chars_impl host_class); [|assumption].
      intros c H. apply is_seperator_not_in_grammar. now rewrite H, !orb_true_r. }
    rewrite !all_chars_app, Ap, Ah. cbn [all_chars andb].
    now rewrite (is_seperator_not_in_grammar env "@").
Qed.

Lemma search_anchored_no_sep (env : Env) (s : string) :
  search_anchored nlm_connection_str_regex s = true ->
  s <> "" /\ all_chars (fun c => negb (is_seperator env c)) s = true.
Proof.
  intros H. apply search_anchored_nlm_spec in H. destruct H as [H|(t & -> & H)].
  - now apply port_at_hostname_no_sep.
  - apply (port_at_hostname_no_sep env) in H. destruct H as [N A]. split.
    + destruct t; [contradiction | discriminate].
    + rewrite all_chars_app, A. now destruct (host_platform env) eqn:P;
        unfold is_seperator, get_mlm_license_file_seperator; rewrite P.
Qed.

(** A single part that the pattern accepts passes. *)
Lemma validate_mlm_license_file_single (env : Env) (s : string) :
  search_anchored nlm_connection_str_regex s = true ->
  result (validate_mlm_license_file env (Some s)) = Return (Some s).
Proof.
  intros H. destruct (search_anchored_no_sep env s H) as [N A].
  rewrite (validate_mlm_license_file_result env s N), (split_no_sep _ _ A).
  cbn [forallb]. unfold nlm_part_ok. now rewrite H, orb_true_r.
Qed.

(** Every character of a server name of the grammar is a digit, the at
    sign or a host character. *)
Lemma port_at_hostname_chars (s : string) :
  port_at_hostname s ->
  all_chars (fun c => digit c || is_char "@" c || host_class c) s = true.
Proof.
  intros (port & host & -> & _ & Dp & _ & Dh).
  rewrite !all_chars_app. cbn [all_chars]. rewrite andb_true_r.
  rewrite (all_chars_impl digit _ port), (all_chars_impl host_class _ host); auto.
  - intros c H. now rewrite H, orb_true_r.
  - intros c H. now rewrite H.
Qed.

(** A server name of the grammar followed by a newline is no server name of
    the grammar, and passes all the same: the dollar of the pattern matches
    before a newline that ends the string. *)
Lemma closing_newline_passes (env : Env) (s : string) :
  port_at_hostname s ->
  ~ port_at_hostname (s ++ nl)
  /\ result (validate_mlm_license_file env (Some (s ++ nl)%string))
     = Return (Some (s ++ nl)%string).
Proof.
  intros H. split.
  - intros G. apply port_at_hostname_chars in G.
    rewrite all_chars_app, andb_true_iff in G. destruct G as [_ G]. discriminate G.
  - apply validate_mlm_license_file_single, search_anchored_nlm_spec.
    right. now exists s.
Qed.

(** C6 does not hold of the code: the connection string made of the server
    name [27000@host] and a closing newline is its own single part, is no
    file, and is no server name of the grammar (one or more digits, an at
    sign, one or more host characters); the claim has the validator fail
    with [NetworkLicensingError], and the validator returns the string. *)
Lemma validate_mlm_license_file_accepts_closing_newline :
  split (is_seperator Sample.env) ("27000@host" ++ nl)%string = [("27000@host" ++ nl)%string]
  /\ isfile Sample.env ("27000@host" ++ nl)%string = false
  /\ ~ port_at_hostname ("27000@host" ++ nl)
  /\ result (validate_mlm_license_file Sample.env (Some ("27000@host" ++ nl)%string))
     = Return (Some ("27000@host" ++ nl)%string).
Proof.
  split; [reflexivity|]. split; [reflexivity|].
  apply (closing_newline_passes Sample.env "27000@host").
  exists "27000", "host". repeat split; discriminate.
Qed.

(** C7: [None] and the empty string yield [None]; a non-empty input that
    passes is returned as it was handed over; and a single server name that
    matches the pattern, or the grammar as the specification words it,
    passes. *)
Theorem validate_mlm_license_file_returns_input (env : Env) :
  result (validate_mlm_license_file env None) = Return None
  /\ result (validate_mlm_license_file env (Some "")) = Return None
  /\ (forall s r,
        s <> "" ->
        result (validate_mlm_license_file env (Some s)) = Return r -> r = Some s)
  /\ (forall s,
        search_anchored nlm_connection_str_regex s = true ->
        result (validate_mlm_license_file env (Some s)) = Return (Some s))
  /\ (forall s,
        port_at_hostname s ->
        result (validate_mlm_license_file env (Some s)) = Return (Some s)).
Proof.
  assert (K : forall s,
             search_anchored nlm_connection_str_regex s = true ->
             result (validate_mlm_license_file env (Some s)) = Return (Some s)).
  { intros s H. destruct (search_anchored_no_sep env s H) as [N A].
    rewrite (validate_mlm_license_file_result env s N), (split_no_sep _ _ A).
    cbn [forallb]. unfold nlm_part_ok. now rewrite H, orb_true_r. }
  split; [reflexivity|]. split; [reflexivity|]. split; [|split; [exact K|]].
  - intros s r N. rewrite (validate_mlm_license_file_result env s N).
    destruct (forallb _ _); [now intros [= <-] | discriminate].
  - intros s H. apply K, search_anchored_nlm_spec. now left.
Qed.

(** The theorem at one server name. *)
Lemma validate_mlm_license_file_returns_input_witness :
  result (validate_mlm_license_file Sample.env (Some "27000@license-1.example.org"))
  = Return (Some "27000@license-1.example.org").
Proof.
  apply (validate_mlm_license_file_returns_input Sample.env).
  exists "27000", "license-1.example.org". repeat split; discriminate.
Defined.

(** ** [validate_app_port_is_free] *)

(** [socket_bind] returns or raises without logging. *)
Lemma socket_bind_quiet (env : Env) (n : Z) : logged (socket_bind env n) = [].
Proof.
  unfold socket_bind. destruct (_ && _); [|reflexivity].
  now destruct (os_bind env n) as [[errno msg]|].
Qed.

Lemma socket_bind_raises (env : Env) (n : Z) (e : exn) :
  result (socket_bind env n) = Raise e ->
  exn_class_of e = OSError \/ exn_class_of e = OverflowError.
Proof.
  unfold socket_bind. destruct (_ && _).
  - destruct (os_bind env n) as [[errno msg]|]; [|discriminate].
    intros [= <-]. now left.
  - intros [= <-]. now right.
Qed.

(** What [validate_app_port_is_free] does once the port is a number. *)
Lemma validate_app_port_is_free_number (env : Env) (p : port_value) (n : Z) :
  port_number env p = Some n ->
  result (validate_app_port_is_free env (Some p)) =
  match result (socket_bind env n) with
  | Return _ => Return (Some p)
  | Raise e =>
      if is_OSError e && errno_is e (EADDRINUSE env)
      then Raise (new_exn FatalError (port_error_message env p))
      else Raise e
  end.
Proof.
  intros P. unfold validate_app_port_is_free.
  assert (I : int_of_port env p = ret n).
  { destruct p as [s|m]; simpl in *; [now rewrite P | congruence]. }
  rewrite I. cbn [ret bind].
  pose proof (socket_bind_quiet env n) as Q.
  destruct (socket_bind env n) as [l [[]|e]]; cbn in Q; subst l; [reflexivity|].
  cbn. destruct (is_OSError e); [|reflexivity].
  now destruct (errno_is e (EADDRINUSE env)).
Qed.

Lemma validate_app_port_is_free_unparsed (env : Env) (s : string) :
  py_int env s = None ->
  validate_app_port_is_free env (Some (PortStr s)) =
  raise (new_exn ValueError
           ("invalid literal for int() with base 10: " ++ py_repr env s)).
Proof. intros P. unfold validate_app_port_is_free. simpl. now rewrite P. Qed.

(** C8: an absent port is returned without error; for a present port the
    [FatalError] that names the port and the environment variable is raised
    exactly when the bind attempt fails with address-in-use; any other
    failure of the bind is raised as it is. *)
Theorem validate_app_port_is_free_spec (env : Env) :
  result (validate_app_port_is_free env None) = Return None
  /\ (forall p,
        (result (validate_app_port_is_free env (Some p))
           = Raise (new_exn FatalError (port_error_message env p))
         <-> bind_fails_in_use env p)
        /\ (forall e,
              result (validate_app_port_is_free env (Some p)) = Raise e ->
              exn_class_of e = FatalError -> bind_fails_in_use env p)
        /\ exists middle,
             port_error_message env p
             = ("The port " ++ format_port p ++ middle ++ env_name_app_port env)%string)
  /\ (forall p n e,
        port_number env p = Some n ->
        result (socket_bind env n) = Raise e ->
        is_OSError e && errno_is e (EADDRINUSE env) = false ->
        result (validate_app_port_is_free env (Some p)) = Raise e).
Proof.
  split; [reflexivity|]. split.
  - intros p.
    assert (K : forall e,
               result (validate_app_port_is_free env (Some p)) = Raise e ->
               exn_class_of e = FatalError -> bind_fails_in_use env p).
    { intros e H C. destruct (port_number env p) as [n|] eqn:P.
      - rewrite (validate_app_port_is_free_number env p n P) in H.
        destruct (result (socket_bind env n)) as [[]|e'] eqn:B; [discriminate|].
        destruct (is_OSError e' && errno_is e' (EADDRINUSE env)) eqn:D.
        + apply andb_prop in D. now exists n, e'.
        + injection H as ->. apply socket_bind_raises in B.
          destruct B; congruence.
      - destruct p as [s|m]; [|discriminate].
        rewrite (validate_app_port_is_free_unparsed env s P) in H.
        injection H as <-. discriminate. }
    split; [split|split].
    + intros H. now apply (K _ H).
    + intros (n & e & P & B & O & E).
      rewrite (validate_app_port_is_free_number env p n P), B, O, E. reflexivity.
    + exact K.
    + unfold port_error_message. eexists. reflexivity.
  - intros p n e P B D.
    now rewrite (validate_app_port_is_free_number env p n P), B, D.
Qed.

(** The theorem at a reserved port: permission denied stays what it is. *)
Lemma validate_app_port_is_free_spec_witness :
  result (validate_app_port_is_free Sample.env (Some (PortInt 80)))
  = Raise (Exn OSError "Permission denied" (Some 13%Z)).
Proof.
  apply (validate_app_port_is_free_spec Sample.env) with (n := 80%Z); reflexivity.
Defined.

(** C10: for a port that is a string which [int] does not parse,
    [validate_app_port_is_free] raises the [ValueError] of the conversion:
    the handler for socket errors does not apply to it, and nothing is
    logged. *)
Theorem validate_app_port_is_free_value_error (env : Env) (s : string) :
  py_int env s = None ->
  exists e,
    result (validate_app_port_is_free env (Some (PortStr s))) = Raise e
    /\ exn_class_of e = ValueError
    /\ is_OSError e = false
    /\ logged (validate_app_port_is_free env (Some (PortStr s))) = [].
Proof.
  intros P. rewrite (validate_app_port_is_free_unparsed env s P).
  eexists. repeat split.
Qed.

(** The theorem at a port spelled out in letters. *)
Lemma validate_app_port_is_free_value_error_witness :
  exists e,
    result (validate_app_port_is_free Sample.env (Some (PortStr "eighty"))) = Raise e
    /\ exn_class_of e = ValueError
    /\ is_OSError e = false
    /\ logged (validate_app_port_is_free Sample.env (Some (PortStr "eighty"))) = [].
Proof.
  apply (validate_app_port_is_free_value_error Sample.env "eighty"). reflexivity.
Defined.

(** ** [validate_env_config] *)

(** A loop whose body raises on the elements that do not pass raises what
    the first such element raises. *)
Lemma for_each_first {A} (ok : A -> bool) (err : A -> exn) (body : A -> M unit)
    (l : list A) :
  (forall x, result (body x) = if ok x then Return tt else Raise (err x)) ->
  result (for_each l body) =
  match find (fun x => negb (ok x)) l with
  | None => Return tt
  | Some x => Raise (err x)
  end.
Proof.
  intros B. induction l as [|x l IH]; simpl; [reflexivity|].
  rewrite result_bind, B. destruct (ok x); simpl; [exact IH | reflexivity].
Qed.

Lemma mem_of_get {V} (d : dict V) (k : string) (v : V) :
  Dict.get d k = Some v -> Dict.mem d k = true.
Proof. unfold Dict.mem. now intros ->. Qed.

(** What [validate_env_config] does for a registered profile. *)
Lemma validate_env_config_found {V} (env : Env) (entry_points : list (string * dict V))
    (config : string) (default_config env_config : dict V) :
  Dict.get (__get_configs entry_points) (default_config_name env) = Some default_config ->
  Dict.get (__get_configs entry_points) (lower config) = Some env_config ->
  result (validate_env_config env entry_points config) =
  match find (fun key => negb (Dict.mem env_config key)) (Dict.keys default_config) with
  | None => Return env_config
  | Some key => Raise (new_exn FatalError (config_missing_key_message key (lower config)))
  end.
Proof.
  intros D C. unfold validate_env_config, getitem.
  rewrite (mem_of_get _ _ _ C), D, C.
  do 3 (rewrite result_bind; cbn [result ret snd]).
  rewrite (for_each_first (Dict.mem env_config)
             (fun key => new_exn FatalError (config_missing_key_message key (lower config)))).
  - now destruct (find _ _).
  - intros key. now destruct (Dict.mem env_config key).
Qed.

(** C9: for a profile name that is registered once lowercased, with the
    default profile registered too, [validate_env_config] raises if and
    only if a key of the default profile is missing from the profile; what
    it raises is the [FatalError] naming that key and the lowercased
    profile name; otherwise it returns the profile's record unchanged. *)
Theorem validate_env_config_schema {V} (env : Env) (entry_points : list (string * dict V))
    (config : string) (default_config env_config : dict V) :
  Dict.get (__get_configs entry_points) (default_config_name env) = Some default_config ->
  Dict.get (__get_configs entry_points) (lower config) = Some env_config ->
  ((exists e, result (validate_env_config env entry_points config) = Raise e)
   <-> exists key, In key (Dict.keys default_config) /\ Dict.mem env_config key = false)
  /\ (forall e,
        result (validate_env_config env entry_points config) = Raise e ->
        exists key,
          In key (Dict.keys default_config) /\ Dict.mem env_config key = false
          /\ e = new_exn FatalError
                   (key ++ " missing in the provided " ++ lower config ++ " configuration"))
  /\ ((forall key, In key (Dict.keys default_config) -> Dict.mem env_config key = true) ->
      result (validate_env_config env entry_points config) = Return env_config).
Proof.
  intros D C. rewrite (validate_env_config_found env entry_points config _ _ D C).
  destruct (find _ (Dict.keys default_config)) as [key|] eqn:F.
  - apply find_some in F. destruct F as [I N]. apply negb_true_iff in N.
    split; [split|split].
    + intros _. now exists key.
    + intros _. eexists. reflexivity.
    + intros e [= <-]. now exists key.
    + intros A. rewrite (A key I) in N. discriminate.
  - split; [split|split].
    + intros [e H]. discriminate.
    + intros (key & I & N). apply (find_none _ _ F) in I.
      cbn in I. rewrite N in I. discriminate.
    + discriminate.
    + reflexivity.
Qed.

(** The theorem at a profile that lacks a key of the default one. *)
Lemma validate_env_config_schema_witness :
  exists key,
    In key ["extension_name"; "doc_url"]
    /\ Dict.mem [("extension_name", "broken")] key = false
    /\ new_exn FatalError "doc_url missing in the provided broken configuration"
       = new_exn FatalError
           (key ++ " missing in the provided " ++ lower "BROKEN" ++ " configuration").
Proof.
  apply (validate_env_config_schema Sample.env Sample.entry_points "BROKEN"
           [("extension_name", "matlab-proxy"); ("doc_url", "https://example.org/doc")]
           [("extension_name", "broken")]); reflexivity.
Defined.

(** ** [validate_ssl_key_and_cert_file] *)

Lemma validate_ssl_cert_file_result (env : Env) (cert : option string) :
  result (validate_ssl_cert_file env cert) =
  match cert with
  | Some f =>
      if truthy f && negb (isfile env f)
      then Raise (new_exn FatalError (ssl_cert_not_a_file_message f))
      else Return cert
  | None => Return None
  end.
Proof.
  unfold validate_ssl_cert_file. rewrite result_bind.
  destruct cert as [f|]; [|reflexivity].
  destruct (truthy f); [|reflexivity]. now destruct (isfile env f).
Qed.

(** What [validate_ssl_key_and_cert_file] returns or raises, without the log. *)
Lemma validate_ssl_key_and_cert_file_result (env : Env) (key cert : option string) :
  result (validate_ssl_key_and_cert_file env key cert) =
  match cert, key with
  | None, None => Return (None, None)
  | None, Some _ => Raise (new_exn FatalError ssl_cert_required_message)
  | Some f, _ =>
      if truthy f && negb (isfile env f)
      then Raise (new_exn FatalError (ssl_cert_not_a_file_message f))
      else match key with
           | Some k =>
               if truthy k && negb (isfile env k)
               then Raise (new_exn FatalError (ssl_key_not_a_file_message k))
               else Return (key, cert)
           | None => Return (key, cert)
           end
  end.
Proof.
  unfold validate_ssl_key_and_cert_file.
  destruct cert as [f|], key as [k|]; cbn [is_none andb negb]; try reflexivity;
    rewrite result_bind, validate_ssl_cert_file_result;
    try reflexivity;
    (destruct (truthy f && negb (isfile env f)); [reflexivity|]);
    cbn [is_none andb negb when];
    repeat (rewrite result_bind; cbn [result ret logger snd]);
    try reflexivity.
  destruct (truthy k); [|reflexivity]. now destruct (isfile env k).
Qed.

(** C1, as stated, fails: with an existing key file and the empty string as
    the certificate the validator returns the pair, which is not what it
    does for an absent certificate. *)
Lemma empty_cert_is_not_absent_cert :
  result (validate_ssl_key_and_cert_file Sample.env (Some "/tmp/real.key") (Some ""))
    = Return (Some "/tmp/real.key", Some "")
  /\ result (validate_ssl_key_and_cert_file Sample.env (Some "/tmp/real.key") (Some ""))
     <> result (validate_ssl_key_and_cert_file Sample.env (Some "/tmp/real.key") None).
Proof. split; [reflexivity | discriminate]. Qed.

(** C1 (amended): for every present key, an absent certificate raises the
    [FatalError] that asks for the certificate; the empty string as the
    certificate is accepted as it is, so that only the check of the key
    file remains: the pair is returned unless the key is a non-empty path
    that is not a file. *)
Theorem validate_ssl_key_and_cert_file_cert_none_or_empty (env : Env) (k : string) :
  result (validate_ssl_key_and_cert_file env (Some k) None)
    = Raise (new_exn FatalError ssl_cert_required_message)
  /\ result (validate_ssl_key_and_cert_file env (Some k) (Some ""))
     = if truthy k && negb (isfile env k)
       then Raise (new_exn FatalError (ssl_key_not_a_file_message k))
       else Return (Some k, Some "").
Proof. rewrite !validate_ssl_key_and_cert_file_result. split; reflexivity. Qed.

(** ** [terminate_on_invalid_matlab_root_path] *)

(** C5, as stated, fails: for an existing root without the version file the
    message of the raised exception is the text built before the checks,
    with nothing about the file appended. *)
Lemma missing_version_file_message_not_appended :
  is_valid_path Sample.env "/opt/empty" = true
  /\ isfile Sample.env (joinpath Sample.env "/opt/empty" (VERSION_INFO_FILE_NAME Sample.env))
     = false
  /\ exists e,
       result (terminate_on_invalid_matlab_root_path Sample.env "/opt/empty" true) = Raise e
       /\ exn_msg e
          <> (matlab_root_error_string Sample.env "/opt/empty" true
              ++ "Failed to locate VersionInfo.xml at this location.")%string
       /\ contains (exn_msg e) "Failed to locate" = false
       /\ contains (exn_msg e) "VersionInfo.xml" = false.
Proof.
  split; [reflexivity|]. split; [reflexivity|].
  eexists. split; [reflexivity|]. split; [discriminate|]. split; reflexivity.
Qed.

(** C5 (amended): for every root that exists and does not contain the
    version file, [terminate_on_invalid_matlab_root_path] raises
    [MatlabInstallError] with exactly the not-found text built before the
    checks; the sentence about the missing file is appended only to the
    text handed to the logger. *)
Theorem terminate_on_missing_version_file (env : Env) (matlab_root : string)
    (is_custom_matlab_root : bool) :
  is_valid_path env matlab_root = true ->
  isfile env (joinpath env matlab_root (VERSION_INFO_FILE_NAME env)) = false ->
  result (terminate_on_invalid_matlab_root_path env matlab_root is_custom_matlab_root)
    = Raise (new_exn MatlabInstallError
               (matlab_root_error_string env matlab_root is_custom_matlab_root))
  /\ In (ERROR,
         (matlab_root_error_string env matlab_root is_custom_matlab_root
          ++ "Failed to locate " ++ VERSION_INFO_FILE_NAME env ++ " at this location.")%string)
        (logged (terminate_on_invalid_matlab_root_path env matlab_root is_custom_matlab_root)).
Proof.
  intros P F. unfold terminate_on_invalid_matlab_root_path, __validate_if_paths_exist.
  cbn [for_each]. rewrite P, F. cbn. split; [reflexivity|]. right. now left.
Qed.

(** The theorem at a directory that holds no version file. *)
Lemma terminate_on_missing_version_file_witness :
  result (terminate_on_invalid_matlab_root_path Sample.env "/opt/empty" false)
  = Raise (new_exn MatlabInstallError
             (matlab_root_error_string Sample.env "/opt/empty" false)).
Proof.
  apply (terminate_on_missing_version_file Sample.env "/opt/empty" false); reflexivity.
Defined.

(** A root that does not exist raises the very same exception. *)
Lemma terminate_on_missing_root (env : Env) (matlab_root : string)
    (is_custom_matlab_root : bool) :
  is_valid_path env matlab_root = false ->
  result (terminate_on_invalid_matlab_root_path env matlab_root is_custom_matlab_root)
  = Raise (new_exn MatlabInstallError
             (matlab_root_error_string env matlab_root is_custom_matlab_root)).
Proof.
  intros P. unfold terminate_on_invalid_matlab_root_path, __validate_if_paths_exist.
  cbn [for_each]. rewrite P. reflexivity.
Qed.

(** ** The class of the fatal failures *)

Lemma validate_env_config_not_found {V} (env : Env) (entry_points : list (string * dict V))
    (config : string) :
  Dict.mem (__get_configs entry_points) (lower config) = false ->
  result (validate_env_config env entry_points config)
  = Raise (new_exn FatalError
             (config_invalid_message env (lower config) (__get_configs entry_points))).
Proof. intros N. unfold validate_env_config. now rewrite N. Qed.

(** C2, as stated, fails: a malformed base URL and a key without a
    certificate are two failure modes with different messages and the same
    exception class. *)
Lemma fatal_kinds_not_distinct :
  exists e1 e2,
    result (validate_base_url Sample.env "matlab") = Raise e1
    /\ result (validate_ssl_key_and_cert_file Sample.env (Some "/tmp/real.key") None)
       = Raise e2
    /\ exn_msg e1 <> exn_msg e2
    /\ exn_class_of e1 = exn_class_of e2.
Proof. do 2 eexists. repeat split. discriminate. Qed.

(** * Further properties of the validators *)

(** ** More on the monad and on loops *)

Lemma bind_run {A B} (m : M A) (k : A -> M B) :
  bind m k =
  match result m with
  | Return a => (logged m ++ logged (k a), result (k a))
  | Raise e => (logged m, Raise e)
  end.
Proof.
  destruct m as [l [a|e]]; simpl; [|reflexivity]. now destruct (k a).
Qed.

Lemma append_cancel_l (a b c : string) : (a ++ b)%string = (a ++ c)%string -> b = c.
Proof. induction a as [|x a IH]; simpl; [auto | intros [= H]; auto]. Qed.

(** ** [validate_base_url], continued *)

(** X1: [validate_base_url] raises exactly for the non-empty inputs that do
    not begin with a slash, and what it raises is the [FatalError] with the
    fixed message about the leading slash. *)
Theorem validate_base_url_fails_iff (env : Env) (x : string) :
  ((exists e, result (validate_base_url env x) = Raise e)
   <-> x <> "" /\ startswith x "/" = false)
  /\ (forall e,
        result (validate_base_url env x) = Raise e ->
        e = new_exn FatalError (base_url_error_message env)).
Proof.
  rewrite validate_base_url_result.
  destruct (String.eqb_spec x "") as [->|N].
  - split; [split|discriminate].
    + intros [e H]. discriminate.
    + intros [H _]. now contradiction H.
  - destruct (startswith x "/") eqn:S.
    + split; [split|discriminate].
      * intros [e H]. discriminate.
      * intros [_ H]. discriminate.
    + split; [split|].
      * intros _. now split.
      * intros _. eexists. reflexivity.
      * now intros e [= <-].
Qed.

(** An instance of the theorem. *)
Lemma validate_base_url_fails_iff_witness :
  new_exn FatalError (base_url_error_message Sample.env)
  = new_exn FatalError (base_url_error_message Sample.env).
Proof.
  apply (validate_base_url_fails_iff Sample.env "matlab"). reflexivity.
Defined.

(** X2: a value returned by [validate_base_url] is the input itself or the
    input without its last slash, nothing else is changed; and a
    successful call logs nothing. *)
Theorem validate_base_url_strips_at_most_one_slash (env : Env) (x y : string) :
  result (validate_base_url env x) = Return y ->
  (y = x \/ x = (y ++ "/")%string)
  /\ logged (validate_base_url env x) = [].
Proof.
  intros H. split.
  - destruct (validate_base_url_returns _ _ _ H) as [[-> ->]|[(_ & _ & ->)|(_ & ->)]]; auto.
  - revert H. unfold validate_base_url.
    destruct (String.eqb x ""); [reflexivity|].
    destruct (startswith x "/"); cbn; [reflexivity | discriminate].
Qed.

(** An instance of the theorem. *)
Lemma validate_base_url_strips_at_most_one_slash_witness :
  ("/matlab" = "/matlab/" \/ "/matlab/" = ("/matlab" ++ "/")%string)
  /\ logged (validate_base_url Sample.env "/matlab/") = [].
Proof.
  apply (validate_base_url_strips_at_most_one_slash Sample.env "/matlab/" "/matlab").
  reflexivity.
Defined.

(** A loop stops at the first element whose body raises: the log ends with
    what that body logged. *)
Lemma for_each_stops {A} (ok : A -> bool) (err : A -> exn) (body : A -> M unit)
    (l : list A) :
  (forall x, result (body x) = if ok x then Return tt else Raise (err x)) ->
  forallb ok l = false ->
  exists l1 x l2 before,
    l = l1 ++ x :: l2 /\ forallb ok l1 = true /\ ok x = false
    /\ logged (for_each l body) = before ++ logged (body x)
    /\ result (for_each l body) = Raise (err x).
Proof.
  intros B. induction l as [|a l IH]; [discriminate|].
  cbn [forallb for_each]. intros F. rewrite bind_run.
  pose proof (B a) as Ba. destruct (ok a) eqn:O.
  - rewrite Ba. cbn [andb] in F.
    destruct (IH F) as (l1 & x & l2 & before & -> & F1 & Ox & L & R).
    exists (a :: l1), x, l2, (logged (body a) ++ before).
    cbn [forallb logged result fst snd]. rewrite O, F1, <- app_assoc.
    repeat split; auto. now f_equal.
  - rewrite Ba. exists [], a, l, [].
    cbn [forallb logged result fst snd app]. repeat split; auto.
Qed.

(** ** [validate_mlm_license_file], continued *)

Lemma split_not_nil (is_sep : ascii -> bool) (s : string) : split is_sep s <> [].
Proof.
  destruct s as [|c s]; simpl; [discriminate|].
  destruct (is_sep c); [discriminate|]. destruct (split is_sep s); discriminate.
Qed.

(** The parts of two strings joined by a separator are the parts of the one
    followed by the parts of the other. *)
Lemma split_app (is_sep : ascii -> bool) (a b : string) (c : ascii) :
  is_sep c = true ->
  split is_sep (a ++ String c b) = split is_sep a ++ split is_sep b.
Proof.
  intros S. induction a as [|x a IH]; simpl.
  - now rewrite S.
  - rewrite IH. destruct (is_sep x); [reflexivity|].
    pose proof (split_not_nil is_sep a) as N.
    destruct (split is_sep a); [contradiction | reflexivity].
Qed.

Lemma append_not_nil_r (a : string) (c : ascii) (b : string) :
  (a ++ String c b)%string <> "".
Proof. destruct a; discriminate. Qed.

Lemma empty_part_rejected (env : Env) (s : string) :
  s <> "" -> isfile env "" = false -> In "" (split (is_seperator env) s) ->
  result (validate_mlm_license_file env (Some s))
  = Raise (new_exn NetworkLicensingError (mlm_error_message s)).
Proof.
  intros N F I. rewrite (validate_mlm_license_file_result env s N).
  replace (forallb _ _) with false; [reflexivity|].
  symmetry. apply forallb_false. exists "". split; [assumption|].
  unfold nlm_part_ok. now rewrite F.
Qed.

(** X3: as the empty path is no file, [validate_mlm_license_file] rejects a
    connection string that ends with a separator or a comma, one that
    begins with one, and one in which two of them follow each other: the
    empty part between them is neither a file nor a server name. *)
Theorem validate_mlm_license_file_rejects_empty_parts (env : Env) (a b : string)
    (c : ascii) :
  is_seperator env c = true ->
  isfile env "" = false ->
  result (validate_mlm_license_file env (Some (a ++ String c "")%string))
    = Raise (new_exn NetworkLicensingError (mlm_error_message (a ++ String c "")))
  /\ result (validate_mlm_license_file env (Some (String c b)))
     = Raise (new_exn NetworkLicensingError (mlm_error_message (String c b)))
  /\ (forall c',
        is_seperator env c' = true ->
        result (validate_mlm_license_file env (Some (a ++ String c (String c' b))%string))
        = Raise (new_exn NetworkLicensingError
                   (mlm_error_message (a ++ String c (String c' b))))).
Proof.
  intros S F. split; [|split].
  - apply empty_part_rejected; [apply append_not_nil_r | assumption |].
    rewrite (split_app _ _ _ _ S). apply in_or_app. right. now left.
  - apply empty_part_rejected; [discriminate | assumption |].
    simpl. rewrite S. now left.
  - intros c' S'.
    apply empty_part_rejected; [apply append_not_nil_r | assumption |].
    rewrite (split_app _ _ _ _ S). apply in_or_app. right.
    simpl. rewrite S'. now left.
Qed.

(** An instance of the theorem. *)
Lemma validate_mlm_license_file_rejects_empty_parts_witness :
  result (validate_mlm_license_file Sample.env (Some ("27000@server1" ++ ",")%string))
  = Raise (new_exn NetworkLicensingError
             (mlm_error_message ("27000@server1" ++ ",")%string)).
Proof.
  apply (validate_mlm_license_file_rejects_empty_parts Sample.env "27000@server1" "" ",");
    reflexivity.
Defined.

(** X4: two non-empty connection strings joined by a separator or a comma
    pass exactly when each of them passes alone; hence the order of the two
    does not matter. *)
Theorem validate_mlm_license_file_joins (env : Env) (a b : string) (c : ascii) :
  a <> "" -> b <> "" -> is_seperator env c = true ->
  (result (validate_mlm_license_file env (Some (a ++ String c b)%string))
     = Return (Some (a ++ String c b))%string
   <-> result (validate_mlm_license_file env (Some a)) = Return (Some a)
       /\ result (validate_mlm_license_file env (Some b)) = Return (Some b))
  /\ (result (validate_mlm_license_file env (Some (a ++ String c b)%string))
        = Return (Some (a ++ String c b))%string
      <-> result (validate_mlm_license_file env (Some (b ++ String c a)%string))
          = Return (Some (b ++ String c a))%string).
Proof.
  intros Na Nb S.
  rewrite (validate_mlm_license_file_result env _ (append_not_nil_r a c b)).
  rewrite (validate_mlm_license_file_result env _ (append_not_nil_r b c a)).
  rewrite (validate_mlm_license_file_result env a Na).
  rewrite (validate_mlm_license_file_result env b Nb).
  rewrite !(split_app _ _ _ _ S), !forallb_app.
  destruct (forallb (nlm_part_ok env) (split (is_seperator env) a)),
           (forallb (nlm_part_ok env) (split (is_seperator env) b)); cbn;
    (split; split; try tauto; try discriminate;
     intros H; try destruct H; discriminate).
Qed.

(** An instance of the theorem. *)
Lemma validate_mlm_license_file_joins_witness :
  result (validate_mlm_license_file Sample.env
            (Some ("27000@server1" ++ String ":" "/tmp/real.key")%string))
  = Return (Some ("27000@server1" ++ String ":" "/tmp/real.key")%string)
  <-> result (validate_mlm_license_file Sample.env (Some "27000@server1"))
      = Return (Some "27000@server1")
      /\ result (validate_mlm_license_file Sample.env (Some "/tmp/real.key"))
         = Return (Some "/tmp/real.key").
Proof.
  apply (validate_mlm_license_file_joins Sample.env "27000@server1" "/tmp/real.key" ":");
    [discriminate | discriminate | reflexivity].
Defined.

(** X5: when [validate_mlm_license_file] raises, the parts before the first
    one that is neither a file nor a server name all passed, and the log
    ends with the error record that names this part, followed by the record
    about the expected form. *)
Theorem validate_mlm_license_file_logs_first_bad_part (env : Env) (s : string) (e : exn) :
  s <> "" ->
  result (validate_mlm_license_file env (Some s)) = Raise e ->
  exists passed tok rest before,
    split (is_seperator env) s = passed ++ tok :: rest
    /\ forallb (nlm_part_ok env) passed = true
    /\ isfile env tok = false
    /\ search_anchored nlm_connection_str_regex tok = false
    /\ logged (validate_mlm_license_file env (Some s))
       = before
         ++ [(ERROR, ("Failed to validate:" ++ tok)%string);
             (ERROR, "NLM_info is not of the form port@hostname or a valid path to a file")].
Proof.
  intros N H. rewrite (validate_mlm_license_file_result env s N) in H.
  destruct (forallb _ _) eqn:F; [discriminate|].
  destruct (for_each_stops (nlm_part_ok env)
              (fun _ => new_exn NetworkLicensingError (mlm_error_message s))
              (validate_nlm_part env s) _
              (validate_nlm_part_result env s) F)
    as (passed & tok & rest & before & E & P & O & L & R).
  unfold nlm_part_ok in O. apply orb_false_iff in O. destruct O as [O1 O2].
  exists passed, tok, rest.
  exists ((DEBUG, "Validating individual parts of the environment variable MLM_LICENSE_FILE")
          :: before).
  repeat split; auto.
  unfold validate_mlm_license_file, truthy.
  destruct (String.eqb_spec s "") as [?|_]; [contradiction|]. cbn [negb].
  rewrite bind_run. cbn [logger result logged fst snd].
  rewrite bind_run, R, L. cbn [logged fst app]. f_equal. f_equal.
  unfold validate_nlm_part. rewrite O1, O2. reflexivity.
Qed.

(** An instance of the theorem. *)
Lemma validate_mlm_license_file_logs_first_bad_part_witness :
  exists passed tok rest before,
    split (is_seperator Sample.env) "27000@server1,oops,x" = passed ++ tok :: rest
    /\ forallb (nlm_part_ok Sample.env) passed = true
    /\ isfile Sample.env tok = false
    /\ search_anchored nlm_connection_str_regex tok = false
    /\ logged (validate_mlm_license_file Sample.env (Some "27000@server1,oops,x"))
       = before
         ++ [(ERROR, ("Failed to validate:" ++ tok)%string);
             (ERROR, "NLM_info is not of the form port@hostname or a valid path to a file")].
Proof.
  eapply (validate_mlm_license_file_logs_first_bad_part Sample.env "27000@server1,oops,x");
    [discriminate | reflexivity].
Defined.

(** ** [validate_app_port_is_free], continued *)

(** X6: [validate_app_port_is_free] returns for a present port exactly when
    [int] yields a number and the bind to it succeeds; it then returns the
    port as it was handed over, string or integer, and logs nothing. *)
Theorem validate_app_port_is_free_returns (env : Env) (p : port_value)
    (r : option port_value) :
  (result (validate_app_port_is_free env (Some p)) = Return r
   <-> r = Some p
       /\ exists n, port_number env p = Some n
                    /\ result (socket_bind env n) = Return tt)
  /\ (result (validate_app_port_is_free env (Some p)) = Return r ->
      logged (validate_app_port_is_free env (Some p)) = []).
Proof.
  destruct (port_number env p) as [n|] eqn:P.
  - rewrite (validate_app_port_is_free_number env p n P).
    assert (L : result (socket_bind env n) = Return tt ->
                logged (validate_app_port_is_free env (Some p)) = []).
    { intros B. unfold validate_app_port_is_free.
      assert (I : int_of_port env p = ret n).
      { destruct p as [s|m]; simpl in *; [now rewrite P | congruence]. }
      rewrite I. cbn [ret bind].
      pose proof (socket_bind_quiet env n) as Q.
      destruct (socket_bind env n) as [l [[]|e]]; cbn in *; [now subst | discriminate]. }
    destruct (result (socket_bind env n)) as [[]|e] eqn:B.
    + split; [split|].
      * intros [= <-]. split; [reflexivity|]. now exists n.
      * now intros [-> _].
      * intros _. now apply L.
    + assert (N : forall X : Prop,
                 (if is_OSError e && errno_is e (EADDRINUSE env)
                  then Raise (new_exn FatalError (port_error_message env p))
                  else Raise e) = Return r -> X).
      { intros X. destruct (_ && _); discriminate. }
      split; [split|]; [apply N | | apply N].
      intros [_ (m & [= <-] & H)]. congruence.
  - destruct p as [s|m]; [|discriminate].
    rewrite (validate_app_port_is_free_unparsed env s P). cbn.
    split; [split|]; try discriminate.
    intros [_ (n & H & _)]. discriminate.
Qed.

(** An instance of the theorem. *)
Lemma validate_app_port_is_free_returns_witness :
  logged (validate_app_port_is_free Sample.env (Some (PortStr "8081"))) = [].
Proof.
  apply (validate_app_port_is_free_returns Sample.env (PortStr "8081")
           (Some (PortStr "8081"))).
  reflexivity.
Defined.

(** ** Dictionaries and [__get_configs] *)

Lemma get_set {V} (d : dict V) (k k' : string) (v : V) :
  Dict.get (Dict.set d k v) k' = if String.eqb k k' then Some v else Dict.get d k'.
Proof.
  induction d as [|[k0 v0] d IH]; simpl.
  - reflexivity.
  - destruct (String.eqb_spec k0 k) as [->|N]; simpl.
    + now destruct (String.eqb k k').
    + rewrite IH. destruct (String.eqb_spec k0 k') as [->|N']; [|reflexivity].
      destruct (String.eqb_spec k k') as [->|_]; [contradiction | reflexivity].
Qed.

Lemma mem_iff_keys {V} (d : dict V) (k : string) :
  Dict.mem d k = true <-> In k (Dict.keys d).
Proof.
  unfold Dict.mem. induction d as [|[k0 v0] d IH]; simpl.
  - split; [discriminate | contradiction].
  - destruct (String.eqb_spec k0 k) as [->|N].
    + split; auto.
    + rewrite IH. split; [auto | intros [E|I]; [contradiction | assumption]].
Qed.

Lemma keys_set {V} (d : dict V) (k : string) (v : V) :
  Dict.keys (Dict.set d k v)
  = if Dict.mem d k then Dict.keys d else Dict.keys d ++ [k].
Proof.
  unfold Dict.mem. induction d as [|[k0 v0] d IH]; simpl.
  - reflexivity.
  - destruct (String.eqb_spec k0 k) as [->|N]; simpl; [reflexivity|].
    unfold Dict.keys in *. rewrite IH. now destruct (Dict.get d k).
Qed.

(** [__get_configs] handles the entry points one after the other. *)
Lemma __get_configs_snoc {V} (entry_points : list (string * dict V))
    (entry_point : string * dict V) :
  __get_configs (entry_points ++ [entry_point])
  = Dict.set (__get_configs entry_points) (lower (fst entry_point)) (snd entry_point).
Proof. unfold __get_configs. now rewrite fold_left_app. Qed.

Lemma __get_configs_keys {V} (entry_points : list (string * dict V)) (name : string) :
  In name (Dict.keys (__get_configs entry_points))
  <-> exists entry_point,
        In entry_point entry_points /\ lower (fst entry_point) = name.
Proof.
  induction entry_points as [|ep eps K] using rev_ind.
  - split; [contradiction | intros (ep & [] & _)].
  - rewrite __get_configs_snoc, keys_set.
    assert (E : In name (Dict.keys (__get_configs eps) ++ [lower (fst ep)])
                <-> exists entry_point,
                      In entry_point (eps ++ [ep]) /\ lower (fst entry_point) = name).
    { rewrite in_app_iff, K. split.
      - intros [(x & I & E)|[E|[]]].
        + exists x. split; [apply in_or_app; now left | assumption].
        + exists ep. split; [apply in_or_app; right; now left | assumption].
      - intros (x & I & E). apply in_app_or in I. destruct I as [I|[->|[]]].
        + left. now exists x.
        + right. now left. }
    destruct (Dict.mem (__get_configs eps) (lower (fst ep))) eqn:M; [|exact E].
    rewrite <- E, in_app_iff. split; [now left|].
    intros [I|[<-|[]]]; [assumption | now apply mem_iff_keys].
Qed.

(** X7: [__get_configs] maps a name to the dictionary of the last entry
    point whose lowercased name it is; its keys are exactly the lowercased
    names of the entry points, each once. *)
Theorem __get_configs_lookup {V} (entry_points : list (string * dict V)) :
  (forall name,
     Dict.get (__get_configs entry_points) name
     = option_map snd
         (find (fun entry_point => String.eqb (lower (fst entry_point)) name)
               (rev entry_points)))
  /\ (forall name,
        In name (Dict.keys (__get_configs entry_points))
        <-> exists entry_point,
              In entry_point entry_points /\ lower (fst entry_point) = name)
  /\ NoDup (Dict.keys (__get_configs entry_points)).
Proof.
  split; [|split; [apply __get_configs_keys|]].
  - induction entry_points as [|ep eps G] using rev_ind; [reflexivity|].
    intros name. rewrite __get_configs_snoc, get_set, rev_app_distr. simpl.
    destruct (String.eqb (lower (fst ep)) name); [reflexivity | apply G].
  - induction entry_points as [|ep eps N] using rev_ind; [constructor|].
    rewrite __get_configs_snoc, keys_set.
    destruct (Dict.mem (__get_configs eps) (lower (fst ep))) eqn:M; [assumption|].
    apply NoDup_app; [assumption | repeat constructor; intros [] |].
    intros x I [<-|[]]. apply mem_iff_keys in I. congruence.
Qed.

Lemma registered_iff_mem {V} (entry_points : list (string * dict V)) (name : string) :
  Dict.mem (__get_configs entry_points) name = true
  <-> exists entry_point, In entry_point entry_points /\ lower (fst entry_point) = name.
Proof.
  rewrite mem_iff_keys. apply __get_configs_keys.
Qed.

Lemma not_registered_mem {V} (entry_points : list (string * dict V)) (name : string) :
  (forall entry_point, In entry_point entry_points -> lower (fst entry_point) <> name) ->
  Dict.mem (__get_configs entry_points) name = false.
Proof.
  intros H. destruct (Dict.mem _ name) eqn:M; [|reflexivity].
  apply registered_iff_mem in M. destruct M as (ep & I & E). now apply H in I.
Qed.

Lemma lower_char_idem (c : ascii) : lower_char (lower_char c) = lower_char c.
Proof. destruct c as [[] [] [] [] [] [] [] []]; reflexivity. Qed.

Lemma lower_idem (s : string) : lower (lower s) = lower s.
Proof.
  induction s as [|c s IH]; simpl; [reflexivity|]. now rewrite lower_char_idem, IH.
Qed.

(** A loop whose body is silent on the elements that pass and, on the
    others, logs and raises, runs to the first element that does not pass. *)
Lemma for_each_quiet {A} (ok : A -> bool) (fails : A -> M unit) (body : A -> M unit)
    (l : list A) :
  (forall x, body x = if ok x then ret tt else fails x) ->
  (forall x, exists e, result (fails x) = Raise e) ->
  for_each l body =
  match find (fun x => negb (ok x)) l with
  | None => ret tt
  | Some x => fails x
  end.
Proof.
  intros B F. induction l as [|x l IH]; simpl; [reflexivity|].
  rewrite B. destruct (ok x); simpl.
  - rewrite IH. now destruct (find _ l) as [y|]; [destruct (fails y)|].
  - destruct (F x) as [e E]. destruct (fails x) as [lg [[]|e']]; [discriminate|].
    reflexivity.
Qed.

(** ** [validate_env_config], continued *)

(** The whole run of [validate_env_config] for a registered profile. *)
Lemma validate_env_config_run {V} (env : Env) (entry_points : list (string * dict V))
    (config : string) (default_config env_config : dict V) :
  Dict.get (__get_configs entry_points) (default_config_name env) = Some default_config ->
  Dict.get (__get_configs entry_points) (lower config) = Some env_config ->
  validate_env_config env entry_points config =
  match find (fun key => negb (Dict.mem env_config key)) (Dict.keys default_config) with
  | None =>
      ([(DEBUG, ("Successfully validated provided " ++ lower config ++ " configuration")%string)],
       Return env_config)
  | Some key =>
      ([(ERROR, config_missing_key_message key (lower config))],
       Raise (new_exn FatalError (config_missing_key_message key (lower config))))
  end.
Proof.
  intros D C. unfold validate_env_config, getitem.
  rewrite (mem_of_get _ _ _ C), D, C. cbn [ret bind app].
  rewrite (for_each_quiet (Dict.mem env_config)
             (fun key =>
                logger ERROR (config_missing_key_message key (lower config)) ;;
                raise (new_exn FatalError (config_missing_key_message key (lower config))))).
  - now destruct (find _ _).
  - intros key. now destruct (Dict.mem env_config key).
  - intros key. eexists. reflexivity.
Qed.

(** X8: for a name that no entry point has once both are lowercased,
    [validate_env_config] raises the [FatalError] that quotes the
    lowercased name and lists the registered names. *)
Theorem validate_env_config_unknown_profile {V} (env : Env)
    (entry_points : list (string * dict V)) (config : string) :
  (forall entry_point,
     In entry_point entry_points -> lower (fst entry_point) <> lower config) ->
  result (validate_env_config env entry_points config)
  = Raise (new_exn FatalError
             (lower config ++ " is not a valid config. Available configs are : ["
              ++ join ", " (map (py_repr env) (Dict.keys (__get_configs entry_points)))
              ++ "]")).
Proof.
  intros H. rewrite validate_env_config_not_found by now apply not_registered_mem.
  reflexivity.
Qed.

(** An instance of the theorem. *)
Lemma validate_env_config_unknown_profile_witness :
  result (validate_env_config Sample.env Sample.entry_points "Nope")
  = Raise (new_exn FatalError
             "nope is not a valid config. Available configs are : ['default_configuration_matlab_proxy', 'cloud', 'broken']").
Proof.
  apply (validate_env_config_unknown_profile Sample.env Sample.entry_points "Nope").
  intros ep I. repeat (destruct I as [<-|I]; [discriminate|]). contradiction.
Defined.

(** X9: when the requested profile is registered and the default profile
    is not, [validate_env_config] raises the [KeyError] of the lookup of
    the default name, and logs nothing. *)
Theorem validate_env_config_default_not_registered {V} (env : Env)
    (entry_points : list (string * dict V)) (config : string) :
  (exists entry_point,
     In entry_point entry_points /\ lower (fst entry_point) = lower config) ->
  (forall entry_point,
     In entry_point entry_points -> lower (fst entry_point) <> default_config_name env) ->
  validate_env_config env entry_points config
  = raise (new_exn KeyError (py_repr env (default_config_name env))).
Proof.
  intros R N. apply registered_iff_mem in R. apply not_registered_mem in N.
  unfold validate_env_config, getitem. rewrite R.
  unfold Dict.mem in N. now destruct (Dict.get _ (default_config_name env)).
Qed.

(** An instance of the theorem. *)
Lemma validate_env_config_default_not_registered_witness :
  validate_env_config Sample.env [("Lab", [("extension_name", "lab")])] "lab"
  = raise (new_exn KeyError "'default_configuration_matlab_proxy'").
Proof.
  apply (validate_env_config_default_not_registered Sample.env
           [("Lab", [("extension_name", "lab")])] "lab").
  - eexists. split; [now left | reflexivity].
  - intros ep [<-|[]]. discriminate.
Defined.

(** X10: when the default name is in lower case and registered,
    validating the default profile itself returns its record. *)
Theorem validate_env_config_default_passes {V} (env : Env)
    (entry_points : list (string * dict V)) :
  lower (default_config_name env) = default_config_name env ->
  (exists entry_point,
     In entry_point entry_points /\ lower (fst entry_point) = default_config_name env) ->
  exists default_config,
    Dict.get (__get_configs entry_points) (default_config_name env) = Some default_config
    /\ result (validate_env_config env entry_points (default_config_name env))
       = Return default_config.
Proof.
  intros L R. apply registered_iff_mem in R. unfold Dict.mem in R.
  destruct (Dict.get _ (default_config_name env)) as [d|] eqn:D; [|discriminate].
  exists d. split; [reflexivity|].
  assert (C : Dict.get (__get_configs entry_points) (lower (default_config_name env))
              = Some d) by now rewrite L.
  rewrite (validate_env_config_run env entry_points _ d d D C).
  destruct (find _ _) as [key|] eqn:F; [|reflexivity].
  apply find_some in F. destruct F as [I M].
  apply mem_iff_keys in I. rewrite I in M. discriminate.
Qed.

(** An instance of the theorem. *)
Lemma validate_env_config_default_passes_witness :
  exists default_config,
    Dict.get (__get_configs Sample.entry_points) (default_config_name Sample.env)
    = Some default_config
    /\ result (validate_env_config Sample.env Sample.entry_points
                 (default_config_name Sample.env))
       = Return default_config.
Proof.
  apply (validate_env_config_default_passes Sample.env Sample.entry_points).
  - reflexivity.
  - eexists. split; [now left | reflexivity].
Defined.

(** X11: [validate_env_config] does for a name what it does for the
    lowercased name: same log, same outcome. *)
Theorem validate_env_config_ignores_case {V} (env : Env)
    (entry_points : list (string * dict V)) (config : string) :
  validate_env_config env entry_points (lower config)
  = validate_env_config env entry_points config.
Proof. unfold validate_env_config. now rewrite lower_idem. Qed.

(** ** [validate_ssl_cert_file] and [validate_ssl_key_and_cert_file], continued *)

Lemma truthy_true_iff (s : string) : truthy s = true <-> s <> "".
Proof.
  unfold truthy. destruct (String.eqb_spec s "") as [->|N]; simpl.
  - split; [discriminate | intros H; now contradiction H].
  - now split.
Qed.

Lemma must_be_file_iff (env : Env) (f : string) :
  truthy f && negb (isfile env f) = false <-> (f <> "" -> isfile env f = true).
Proof.
  rewrite andb_false_iff, negb_false_iff. split.
  - intros [T|I] N; [|assumption]. apply truthy_true_iff in N. congruence.
  - intros H. destruct (truthy f) eqn:T; [right | now left].
    apply H. now apply truthy_true_iff.
Qed.

(** A check that failed contradicts the statement that the file exists. *)
Ltac file_clash H B :=
  let X := fresh in
  pose proof (proj2 (must_be_file_iff _ _) (H _ eq_refl)) as X;
  rewrite X in B; discriminate.

(** X12: [validate_ssl_cert_file] returns its argument unchanged exactly
    when that is [None], the empty string or an existing file; otherwise it
    raises the [FatalError] that names the file. *)
Theorem validate_ssl_cert_file_returns (env : Env) (cert r : option string) :
  (result (validate_ssl_cert_file env cert) = Return r
   <-> r = cert /\ (forall c, cert = Some c -> c <> "" -> isfile env c = true))
  /\ (forall e,
        result (validate_ssl_cert_file env cert) = Raise e ->
        exists c,
          cert = Some c /\ c <> "" /\ isfile env c = false
          /\ e = new_exn FatalError ("MWI_SSL_CERT_FILE is not a valid file: " ++ c)).
Proof.
  rewrite validate_ssl_cert_file_result. destruct cert as [f|].
  - destruct (truthy f && negb (isfile env f)) eqn:B.
    + split; [split; [discriminate|]|].
      * intros [_ H]. file_clash H B.
      * intros e [= <-]. exists f. apply andb_prop in B. destruct B as [T I].
        apply truthy_true_iff in T. apply negb_true_iff in I. now repeat split.
    + split; [split|discriminate].
      * intros [= <-]. split; [reflexivity|]. intros c [= <-].
        now apply must_be_file_iff.
      * now intros [-> _].
  - split; [split|discriminate].
    + intros [= <-]. split; [reflexivity | discriminate].
    + now intros [-> _].
Qed.

(** An instance of the theorem. *)
Lemma validate_ssl_cert_file_returns_witness :
  exists c,
    Some "/tmp/no.crt" = Some c /\ c <> "" /\ isfile Sample.env c = false
    /\ new_exn FatalError "MWI_SSL_CERT_FILE is not a valid file: /tmp/no.crt"
       = new_exn FatalError ("MWI_SSL_CERT_FILE is not a valid file: " ++ c).
Proof.
  apply (validate_ssl_cert_file_returns Sample.env (Some "/tmp/no.crt") None).
  reflexivity.
Defined.

(** X13: [validate_ssl_key_and_cert_file] returns exactly when a non-empty
    certificate is a file, a non-empty key is a file, and a key comes with
    a certificate; it then returns the pair as it was handed over. *)
Theorem validate_ssl_key_and_cert_file_returns (env : Env) (key cert : option string)
    (r : option string * option string) :
  result (validate_ssl_key_and_cert_file env key cert) = Return r
  <-> r = (key, cert)
      /\ (forall c, cert = Some c -> c <> "" -> isfile env c = true)
      /\ (forall k, key = Some k -> k <> "" -> isfile env k = true)
      /\ (key <> None -> cert <> None).
Proof.
  rewrite validate_ssl_key_and_cert_file_result.
  destruct cert as [f|], key as [k|].
  - destruct (truthy f && negb (isfile env f)) eqn:Bf;
      [|destruct (truthy k && negb (isfile env k)) eqn:Bk].
    + split; [discriminate|]. intros (_ & H & _). file_clash H Bf.
    + split; [discriminate|]. intros (_ & _ & H & _). file_clash H Bk.
    + split.
      * intros [= <-]. split; [reflexivity|].
        split; [intros c [= <-]; now apply must_be_file_iff|].
        split; [intros c [= <-]; now apply must_be_file_iff | discriminate].
      * now intros [-> _].
  - destruct (truthy f && negb (isfile env f)) eqn:Bf.
    + split; [discriminate|]. intros (_ & H & _). file_clash H Bf.
    + split.
      * intros [= <-]. split; [reflexivity|].
        split; [intros c [= <-]; now apply must_be_file_iff|].
        split; [discriminate | discriminate].
      * now intros [-> _].
  - split; [discriminate|]. intros (_ & _ & _ & H). now contradiction H.
  - split.
    + intros [= <-]. split; [reflexivity|]. repeat split; try discriminate.
      intros H. now contradiction H.
    + now intros [-> _].
Qed.

(** An instance of the theorem. *)
Lemma validate_ssl_key_and_cert_file_returns_witness :
  (Some "/tmp/real.key", Some "/tmp/real.crt") = (Some "/tmp/real.key", Some "/tmp/real.crt")
  /\ (forall c, Some "/tmp/real.crt" = Some c -> c <> "" -> isfile Sample.env c = true)
  /\ (forall k, Some "/tmp/real.key" = Some k -> k <> "" -> isfile Sample.env k = true)
  /\ (Some "/tmp/real.key" <> None -> Some "/tmp/real.crt" <> None).
Proof.
  apply (validate_ssl_key_and_cert_file_returns Sample.env
           (Some "/tmp/real.key") (Some "/tmp/real.crt")).
  reflexivity.
Defined.

(** X14: the certificate is checked first: a non-empty certificate that is
    no file raises the error about the certificate whatever the key is,
    with that one error record in the log. *)
Theorem validate_ssl_key_and_cert_file_checks_cert_first (env : Env)
    (key : option string) (c : string) :
  c <> "" -> isfile env c = false ->
  validate_ssl_key_and_cert_file env key (Some c)
  = ([(ERROR, ("MWI_SSL_CERT_FILE is not a valid file: " ++ c)%string)],
     Raise (new_exn FatalError ("MWI_SSL_CERT_FILE is not a valid file: " ++ c))).
Proof.
  intros N F. apply truthy_true_iff in N.
  unfold validate_ssl_key_and_cert_file, validate_ssl_cert_file.
  cbn [is_none andb]. rewrite N, F. reflexivity.
Qed.

(** An instance of the theorem. *)
Lemma validate_ssl_key_and_cert_file_checks_cert_first_witness :
  validate_ssl_key_and_cert_file Sample.env (Some "/tmp/no.key") (Some "/tmp/no.crt")
  = ([(ERROR, ("MWI_SSL_CERT_FILE is not a valid file: " ++ "/tmp/no.crt")%string)],
     Raise (new_exn FatalError ("MWI_SSL_CERT_FILE is not a valid file: " ++ "/tmp/no.crt"))).
Proof.
  apply (validate_ssl_key_and_cert_file_checks_cert_first Sample.env
           (Some "/tmp/no.key") "/tmp/no.crt"); [discriminate | reflexivity].
Defined.

(** X15: a certificate without a key, empty or an existing file, is
    returned with two information records in the log: the advice that the
    certificate must contain the private key, and the summary. *)
Theorem validate_ssl_key_and_cert_file_cert_alone (env : Env) (c : string) :
  (c <> "" -> isfile env c = true) ->
  validate_ssl_key_and_cert_file env None (Some c)
  = ([(INFO, ("MWI_SSL_KEY_FILE is not provided, ensure that your MWI_SSL_CERT_FILE : '"
              ++ c ++ "' contains a private key")%string);
      (INFO, ("SSL Keys provided were: MWI_SSL_CERT_FILE: " ++ c
              ++ " & MWI_SSL_KEY_FILE: None")%string)],
     Return (None, Some c)).
Proof.
  intros H. apply must_be_file_iff in H.
  unfold validate_ssl_key_and_cert_file, validate_ssl_cert_file.
  cbn [is_none andb]. apply andb_false_iff in H.
  destruct (truthy c); [|reflexivity].
  destruct H as [H|H]; [discriminate|]. rewrite H. reflexivity.
Qed.

(** An instance of the theorem. *)
Lemma validate_ssl_key_and_cert_file_cert_alone_witness :
  validate_ssl_key_and_cert_file Sample.env None (Some "/tmp/real.crt")
  = ([(INFO, ("MWI_SSL_KEY_FILE is not provided, ensure that your MWI_SSL_CERT_FILE : '"
              ++ "/tmp/real.crt" ++ "' contains a private key")%string);
      (INFO, ("SSL Keys provided were: MWI_SSL_CERT_FILE: " ++ "/tmp/real.crt"
              ++ " & MWI_SSL_KEY_FILE: None")%string)],
     Return (None, Some "/tmp/real.crt")).
Proof.
  apply (validate_ssl_key_and_cert_file_cert_alone Sample.env "/tmp/real.crt").
  reflexivity.
Defined.

(** ** [__validate_if_paths_exist] and [terminate_on_invalid_matlab_root_path], continued *)

Lemma find_first_failing {A} (ok : A -> bool) (passed : list A) (bad : A)
    (rest : list A) :
  forallb ok passed = true -> ok bad = false ->
  find (fun x => negb (ok x)) (passed ++ bad :: rest) = Some bad.
Proof.
  intros F B. induction passed as [|x l IH]; simpl in *; [now rewrite B|].
  apply andb_prop in F. destruct F as [N F]. rewrite N. now apply IH.
Qed.

Lemma find_no_failing {A} (ok : A -> bool) (l : list A) :
  forallb ok l = true -> find (fun x => negb (ok x)) l = None.
Proof.
  induction l as [|x l IH]; simpl; [reflexivity|]. intros F.
  apply andb_prop in F. destruct F as [N F]. rewrite N. now apply IH.
Qed.

Lemma __validate_if_paths_exist_run (env : Env) (paths : list string) :
  __validate_if_paths_exist env paths =
  match find (fun path => negb (is_valid_path env path)) paths with
  | None => ret paths
  | Some path => raise (new_exn OSError ("Supplied invalid path:" ++ path))
  end.
Proof.
  unfold __validate_if_paths_exist.
  rewrite (for_each_quiet (is_valid_path env)
             (fun path => raise (new_exn OSError ("Supplied invalid path:" ++ path)))).
  - now destruct (find _ _).
  - intros path. now destruct (is_valid_path env path).
  - intros path. eexists. reflexivity.
Qed.

(** X16: [__validate_if_paths_exist] returns the list it was given when
    every path is valid, and otherwise raises the [OSError] that names the
    first path that is not; it logs nothing. *)
Theorem __validate_if_paths_exist_first_invalid (env : Env) (paths : list string) :
  (forallb (is_valid_path env) paths = true ->
   __validate_if_paths_exist env paths = ret paths)
  /\ (forall passed bad rest,
        paths = passed ++ bad :: rest ->
        forallb (is_valid_path env) passed = true ->
        is_valid_path env bad = false ->
        __validate_if_paths_exist env paths
        = raise (new_exn OSError ("Supplied invalid path:" ++ bad))).
Proof.
  rewrite __validate_if_paths_exist_run. split.
  - intros F. now rewrite find_no_failing.
  - intros passed bad rest -> F B. now rewrite (find_first_failing _ passed bad rest).
Qed.

(** An instance of the theorem. *)
Lemma __validate_if_paths_exist_first_invalid_witness :
  __validate_if_paths_exist Sample.env ["/opt/matlab"; "/opt/none"; "/opt/nothing"]
  = raise (new_exn OSError ("Supplied invalid path:" ++ "/opt/none")).
Proof.
  apply (__validate_if_paths_exist_first_invalid Sample.env
           ["/opt/matlab"; "/opt/none"; "/opt/nothing"])
    with (passed := ["/opt/matlab"]) (rest := ["/opt/nothing"]); reflexivity.
Defined.

(** The whole run of [terminate_on_invalid_matlab_root_path]. *)
Lemma terminate_on_invalid_matlab_root_path_run (env : Env) (matlab_root : string)
    (is_custom_matlab_root : bool) :
  terminate_on_invalid_matlab_root_path env matlab_root is_custom_matlab_root =
  if is_valid_path env matlab_root then
    if isfile env (joinpath env matlab_root (VERSION_INFO_FILE_NAME env)) then
      ([(DEBUG, ("Specified MATLAB root path:" ++ matlab_root
                 ++ " exists, continuing to verify its validity...")%string)],
       Return matlab_root)
    else
      ([(DEBUG, ("Specified MATLAB root path:" ++ matlab_root
                 ++ " exists, continuing to verify its validity...")%string);
        (ERROR, matlab_root_log_error_string env matlab_root is_custom_matlab_root)],
       Raise (new_exn MatlabInstallError
                (matlab_root_error_string env matlab_root is_custom_matlab_root)))
  else
    ([(ERROR, ("Supplied invalid path:" ++ matlab_root)%string)],
     Raise (new_exn MatlabInstallError
              (matlab_root_error_string env matlab_root is_custom_matlab_root))).
Proof.
  unfold terminate_on_invalid_matlab_root_path, __validate_if_paths_exist.
  cbn [for_each]. destruct (is_valid_path env matlab_root); [|reflexivity].
  now destruct (isfile env _).
Qed.

(** X17: [terminate_on_invalid_matlab_root_path] returns exactly when the
    root is a valid path and the check for the version file answers that it
    is there, and then returns the root; for a root that is no valid path
    the [OSError] of the path check does not leave the function: its text
    is logged as the only record, and [MatlabInstallError] with the text
    built before the checks is raised in its place. *)
Theorem terminate_on_invalid_matlab_root_path_returns (env : Env) (matlab_root : string)
    (is_custom_matlab_root : bool) :
  (forall r,
     result (terminate_on_invalid_matlab_root_path env matlab_root is_custom_matlab_root)
       = Return r
     <-> r = matlab_root
         /\ is_valid_path env matlab_root = true
         /\ isfile env (joinpath env matlab_root (VERSION_INFO_FILE_NAME env)) = true)
  /\ (is_valid_path env matlab_root = false ->
      terminate_on_invalid_matlab_root_path env matlab_root is_custom_matlab_root
      = ([(ERROR, ("Supplied invalid path:" ++ matlab_root)%string)],
         Raise (new_exn MatlabInstallError
                  (matlab_root_error_string env matlab_root is_custom_matlab_root)))).
Proof.
  rewrite terminate_on_invalid_matlab_root_path_run.
  destruct (is_valid_path env matlab_root);
    [destruct (isfile env _)|]; cbn [result snd].
  - split; [|discriminate]. intros r. split; [now intros [= <-] | now intros [-> _]].
  - split; [|discriminate]. intros r. split; [discriminate|].
    intros (_ & _ & H). discriminate.
  - split; [|reflexivity]. intros r. split; [discriminate|].
    intros (_ & H & _). discriminate.
Qed.

(** An instance of the theorem. *)
Lemma terminate_on_invalid_matlab_root_path_returns_witness :
  terminate_on_invalid_matlab_root_path Sample.env "/opt/none" true
  = ([(ERROR, ("Supplied invalid path:" ++ "/opt/none")%string)],
     Raise (new_exn MatlabInstallError
              (matlab_root_error_string Sample.env "/opt/none" true))).
Proof.
  apply (terminate_on_invalid_matlab_root_path_returns Sample.env "/opt/none" true).
  reflexivity.
Defined.

(** X18: for a root that is rejected, the message for a custom root differs
    from the one for a discovered root: the first names the environment
    variable to edit, the second tells to update the system path. *)
Theorem terminate_on_invalid_matlab_root_path_flag_shows (env : Env)
    (matlab_root : string) (e_custom e_found : exn) :
  result (terminate_on_invalid_matlab_root_path env matlab_root true) = Raise e_custom ->
  result (terminate_on_invalid_matlab_root_path env matlab_root false) = Raise e_found ->
  exn_msg e_custom <> exn_msg e_found
  /\ (exists rest,
        exn_msg e_custom
        = ("Unable to find MATLAB at: " ++ matlab_root ++ nl
           ++ "Edit the environment variable " ++ env_name_custom_matlab_root env ++ rest)%string)
  /\ exn_msg e_found
     = ("Unable to find MATLAB at: " ++ matlab_root ++ nl
        ++ "Update your system PATH, and restart matlab-proxy.")%string.
Proof.
  rewrite !terminate_on_invalid_matlab_root_path_run.
  destruct (is_valid_path env matlab_root); [destruct (isfile env _)|];
    cbn [result snd]; try discriminate;
    intros [= <-] [= <-]; cbn [new_exn exn_msg];
    unfold matlab_root_error_string;
    (split; [|split; [eexists; reflexivity | reflexivity]]);
    intros H; apply (append_cancel_l "Unable to find MATLAB at: ") in H;
    apply append_cancel_l in H; discriminate H.
Qed.

(** An instance of the theorem. *)
Lemma terminate_on_invalid_matlab_root_path_flag_shows_witness :
  exn_msg (new_exn MatlabInstallError (matlab_root_error_string Sample.env "/opt/empty" true))
  <> exn_msg (new_exn MatlabInstallError
                (matlab_root_error_string Sample.env "/opt/empty" false)).
Proof.
  apply (terminate_on_invalid_matlab_root_path_flag_shows Sample.env "/opt/empty");
    reflexivity.
Defined.

(** ** Fatal errors and the log *)

(** X19: whenever [validate_app_port_is_free], [validate_base_url],
    [validate_ssl_key_and_cert_file] or [validate_env_config] raises a
    [FatalError], the log of the call is exactly one error record, and its
    text is the message of the exception. *)
Theorem fatal_errors_are_logged_once (env : Env) :
  (forall port e,
     result (validate_app_port_is_free env port) = Raise e ->
     exn_class_of e = FatalError ->
     logged (validate_app_port_is_free env port) = [(ERROR, exn_msg e)])
  /\ (forall x e,
        result (validate_base_url env x) = Raise e ->
        logged (validate_base_url env x) = [(ERROR, exn_msg e)])
  /\ (forall key cert e,
        result (validate_ssl_key_and_cert_file env key cert) = Raise e ->
        logged (validate_ssl_key_and_cert_file env key cert) = [(ERROR, exn_msg e)])
  /\ (forall (V : Type) (entry_points : list (string * dict V)) config e,
        result (validate_env_config env entry_points config) = Raise e ->
        exn_class_of e = FatalError ->
        logged (validate_env_config env entry_points config) = [(ERROR, exn_msg e)]).
Proof.
  split; [|split; [|split]].
  - intros [p|] e; [|discriminate]. unfold validate_app_port_is_free.
    assert (I : (exists n, int_of_port env p = ret n)
                \/ exists e', int_of_port env p = raise e' /\ exn_class_of e' = ValueError).
    { destruct p as [s|m]; simpl; [|left; now exists m].
      destruct (py_int env s) as [n|]; [left; now exists n|].
      right. eexists. split; reflexivity. }
    destruct I as [[n ->]|(e' & -> & C')].
    + cbn [ret bind]. pose proof (socket_bind_quiet env n) as Q.
      pose proof (socket_bind_raises env n) as R.
      destruct (socket_bind env n) as [l [[]|e']]; cbn in Q; subst l; [discriminate|].
      cbn. destruct (is_OSError e') eqn:O.
      * destruct (errno_is e' (EADDRINUSE env)); cbn.
        -- now intros [= <-].
        -- intros [= <-] C. unfold is_OSError in O. rewrite C in O. discriminate.
      * cbn. intros [= <-] C. destruct (R e' eq_refl); congruence.
    + cbn. unfold is_OSError. rewrite C'. cbn. intros [= <-] C. congruence.
  - intros x e. unfold validate_base_url.
    destruct (String.eqb x ""); [discriminate|].
    destruct (startswith x "/"); cbn; [discriminate | now intros [= <-]].
  - intros key cert e.
    unfold validate_ssl_key_and_cert_file, validate_ssl_cert_file.
    destruct cert as [f|], key as [k|]; cbn [is_none andb negb];
      try destruct (truthy f); try destruct (isfile env f);
      try destruct (truthy k); try destruct (isfile env k);
      cbn; try discriminate; now intros [= <-].
  - intros V entry_points config e.
    destruct (Dict.get (__get_configs entry_points) (lower config)) as [env_config|] eqn:C.
    + destruct (Dict.get (__get_configs entry_points) (default_config_name env))
        as [default_config|] eqn:D.
      * rewrite (validate_env_config_run env entry_points config _ _ D C).
        destruct (find _ _); cbn; [now intros [= <-] | discriminate].
      * unfold validate_env_config, getitem.
        rewrite (mem_of_get _ _ _ C), D. cbn. intros [= <-] K. discriminate.
    + unfold validate_env_config, Dict.mem. rewrite C. cbn. now intros [= <-].
Qed.

(** An instance of the theorem. *)
Lemma fatal_errors_are_logged_once_witness :
  logged (validate_app_port_is_free Sample.env (Some (PortInt 8080)))
  = [(ERROR, exn_msg (new_exn FatalError (port_error_message Sample.env (PortInt 8080))))].
Proof.
  apply (fatal_errors_are_logged_once Sample.env); reflexivity.
Defined.

(** ** [validate_use_existing_licensing] *)

Lemma code_points_eqb_eq (a b : list N) : code_points_eqb a b = true <-> a = b.
Proof.
  revert b. induction a as [|x a IH]; destruct b as [|y b]; simpl;
    try (split; [discriminate | discriminate]); [now split|].
  rewrite andb_true_iff, N.eqb_eq, IH. split; [now intros [-> ->] | now intros [= -> ->]].
Qed.

Lemma casefold_char_not_nil (c : ascii) (rest : list N) : casefold_char c ++ rest <> [].
Proof.
  unfold casefold_char. destruct (_ =? 223)%nat; [discriminate|].
  destruct (_ =? 181)%nat; discriminate.
Qed.

(** A letter of [true] at the head of a casefolded string comes from one
    character, whose lowercase form it is. *)
Lemma casefold_char_head (c : ascii) (n : N) (rest target : list N) :
  casefold_char c ++ rest = n :: target ->
  (n = 116 \/ n = 114 \/ n = 117 \/ n = 101)%N ->
  lower_char c = ascii_of_N n /\ rest = target.
Proof.
  unfold casefold_char. destruct (_ =? 223)%nat.
  - intros [= <- _] H. repeat (destruct H as [H|H]; [discriminate|]). discriminate.
  - destruct (_ =? 181)%nat.
    + intros [= <- _] H. repeat (destruct H as [H|H]; [discriminate|]). discriminate.
    + intros [= <- ->] _. now rewrite ascii_N_embedding.
Qed.

Lemma casefold_char_of_lower (c a : ascii) :
  lower_char c = a ->
  (a = "t" \/ a = "r" \/ a = "u" \/ a = "e")%char ->
  casefold_char c = [N_of_ascii a].
Proof.
  intros L H. unfold casefold_char.
  destruct (nat_of_ascii c =? 223)%nat eqn:E1;
    [|destruct (nat_of_ascii c =? 181)%nat eqn:E2]; [| |now rewrite L].
  - apply Nat.eqb_eq in E1. apply (f_equal ascii_of_nat) in E1.
    rewrite ascii_nat_embedding in E1. subst c. subst a.
    repeat (destruct H as [H|H]; [discriminate|]). discriminate.
  - apply Nat.eqb_eq in E2. apply (f_equal ascii_of_nat) in E2.
    rewrite ascii_nat_embedding in E2. subst c. subst a.
    repeat (destruct H as [H|H]; [discriminate|]). discriminate.
Qed.

(** X20: [validate_use_existing_licensing] is true exactly for the strings
    whose lowercase form is [true]: the four letters in any case, with
    nothing before or after them. *)
Theorem validate_use_existing_licensing_iff (use_existing_license : string) :
  validate_use_existing_licensing use_existing_license = true
  <-> lower use_existing_license = "true".
Proof.
  unfold validate_use_existing_licensing.
  destruct (code_points_eqb _ _) eqn:E.
  - split; [intros _ | reflexivity]. apply code_points_eqb_eq in E.
    change (code_points "true") with [116; 114; 117; 101]%N in E.
    destruct use_existing_license as [|c1 [|c2 [|c3 [|c4 s]]]]; cbn [casefold] in E;
      repeat match type of E with
             | casefold_char _ ++ _ = _ :: _ =>
                 let L := fresh "L" in
                 apply casefold_char_head in E; [destruct E as [L E] | tauto]
             end;
      try discriminate.
    destruct s as [|c5 s]; [|now apply casefold_char_not_nil in E].
    simpl. now rewrite L, L0, L1, L2.
  - split; [discriminate|]. intros L. exfalso.
    destruct use_existing_license as [|c1 [|c2 [|c3 [|c4 [|c5 s]]]]]; try discriminate.
    simpl in L. injection L as L1 L2 L3 L4.
    cbn [casefold] in E.
    rewrite (casefold_char_of_lower c1 "t"), (casefold_char_of_lower c2 "r"),
      (casefold_char_of_lower c3 "u"), (casefold_char_of_lower c4 "e") in E by tauto.
    discriminate.
Qed.

Example existing_licensing_examples :
  validate_use_existing_licensing "TRUE" = true
  /\ validate_use_existing_licensing "True" = true
  /\ validate_use_existing_licensing "true " = false
  /\ validate_use_existing_licensing "yes" = false
  /\ validate_use_existing_licensing "" = false.
Proof. repeat split. Qed.

(** ** The class and the messages of the fatal failures *)

Lemma snoc_last (a b : string) (x y : ascii) :
  (a ++ String x "")%string = (b ++ String y "")%string -> x = y.
Proof.
  revert b. induction a as [|c a IH]; intros [|d b]; simpl; intros H.
  - now injection H.
  - injection H as _ H. destruct b; discriminate.
  - injection H as _ H. destruct a; discriminate.
  - injection H as _ H. now apply (IH b).
Qed.

(** A string that ends with a character still does behind any other. *)
Lemma ends_app (a b : string) (x : ascii) :
  (exists t, b = (t ++ String x "")%string) ->
  exists t, (a ++ b)%string = (t ++ String x "")%string.
Proof. intros [t ->]. exists (a ++ t)%string. now rewrite append_assoc. Qed.

Lemma config_messages_differ {V} (env : Env) (config : string) (available : dict (dict V))
    (key profile : string) :
  config_invalid_message env config available <> config_missing_key_message key profile.
Proof.
  unfold config_invalid_message, config_missing_key_message, repr_list. intros H.
  assert (L : exists t,
            (config ++ " is not a valid config. Available configs are : "
             ++ "[" ++ join ", " (map (py_repr env) (Dict.keys available)) ++ "]")%string
            = (t ++ String "]" "")%string).
  { do 3 apply ends_app. now eexists. }
  assert (R : exists t,
            (key ++ " missing in the provided " ++ profile ++ " configuration")%string
            = (t ++ String "n" "")%string).
  { do 3 apply ends_app. now exists " configuratio". }
  destruct L as [t1 L], R as [t2 R]. rewrite L, R in H.
  apply snoc_last in H. discriminate.
Qed.

(** C2 (amended): a port in use, a base URL without its leading slash, a
    certificate or a key that is no file, a key without a certificate, an
    unregistered profile and a profile that lacks a key of the default one
    are each raised as the one class [FatalError] with the message of their
    own template, and whatever [validate_base_url],
    [validate_ssl_key_and_cert_file] and, with the default profile
    registered, [validate_env_config] raise is of that class.  The messages
    of the failure modes of one validator differ from each other; those of
    two validators can be the same text. *)
Theorem fatal_failures_share_one_class (env : Env) :
  (forall p,
     bind_fails_in_use env p ->
     result (validate_app_port_is_free env (Some p))
     = Raise (new_exn FatalError
                ("The port " ++ format_port p
                 ++ " is not available. Please set another value for the environment variable "
                 ++ env_name_app_port env)))
  /\ (forall x,
        x <> "" -> startswith x "/" = false ->
        result (validate_base_url env x)
        = Raise (new_exn FatalError
                   ("The value of environment variable " ++ env_name_base_url env
                    ++ " must start with " ++ dquote ++ "/" ++ dquote ++ " ")))
  /\ (forall key f,
        f <> "" -> isfile env f = false ->
        result (validate_ssl_key_and_cert_file env key (Some f))
        = Raise (new_exn FatalError ("MWI_SSL_CERT_FILE is not a valid file: " ++ f)))
  /\ (forall k f,
        (f <> "" -> isfile env f = true) -> k <> "" -> isfile env k = false ->
        result (validate_ssl_key_and_cert_file env (Some k) (Some f))
        = Raise (new_exn FatalError ("MWI_SSL_KEY_FILE is not a valid file: " ++ k)))
  /\ (forall k,
        result (validate_ssl_key_and_cert_file env (Some k) None)
        = Raise (new_exn FatalError
                   "MWI_SSL_CERT_FILE must be provided to use the MWI_SSL_KEY_FILE"))
  /\ (forall (V : Type) (entry_points : list (string * dict V)) config,
        (forall entry_point,
           In entry_point entry_points -> lower (fst entry_point) <> lower config) ->
        result (validate_env_config env entry_points config)
        = Raise (new_exn FatalError
                   (lower config ++ " is not a valid config. Available configs are : "
                    ++ repr_list env (Dict.keys (__get_configs entry_points)))))
  /\ (forall (V : Type) (entry_points : list (string * dict V)) config
             default_config env_config passed key rest,
        Dict.get (__get_configs entry_points) (default_config_name env)
          = Some default_config ->
        Dict.get (__get_configs entry_points) (lower config) = Some env_config ->
        Dict.keys default_config = passed ++ key :: rest ->
        forallb (Dict.mem env_config) passed = true ->
        Dict.mem env_config key = false ->
        result (validate_env_config env entry_points config)
        = Raise (new_exn FatalError
                   (key ++ " missing in the provided " ++ lower config ++ " configuration")))
  /\ (forall x e,
        result (validate_base_url env x) = Raise e ->
        e = new_exn FatalError (base_url_error_message env))
  /\ (forall key cert e,
        result (validate_ssl_key_and_cert_file env key cert) = Raise e ->
        exn_class_of e = FatalError
        /\ (exn_msg e = ssl_cert_required_message
            \/ (exists f, cert = Some f /\ exn_msg e = ssl_cert_not_a_file_message f)
            \/ (exists f, key = Some f /\ exn_msg e = ssl_key_not_a_file_message f)))
  /\ (forall (V : Type) (entry_points : list (string * dict V)) config default_config e,
        Dict.get (__get_configs entry_points) (default_config_name env)
          = Some default_config ->
        result (validate_env_config env entry_points config) = Raise e ->
        exn_class_of e = FatalError
        /\ (exn_msg e
              = config_invalid_message env (lower config) (__get_configs entry_points)
            \/ exists k, exn_msg e = config_missing_key_message k (lower config)))
  /\ (forall f k,
        ssl_cert_not_a_file_message f <> ssl_key_not_a_file_message k
        /\ ssl_cert_not_a_file_message f <> ssl_cert_required_message
        /\ ssl_key_not_a_file_message k <> ssl_cert_required_message)
  /\ (forall (V : Type) config (available : dict (dict V)) key profile,
        config_invalid_message env config available
        <> config_missing_key_message key profile)
  /\ (forall x profile,
        ssl_cert_not_a_file_message
          (x ++ " missing in the provided " ++ profile ++ " configuration")
        = config_missing_key_message ("MWI_SSL_CERT_FILE is not a valid file: " ++ x)
            profile).
Proof.
  repeat match goal with |- _ /\ _ => split end.
  - intros p (n & e & P & B & O & E).
    now rewrite (validate_app_port_is_free_number env p n P), B, O, E.
  - intros x N S. rewrite validate_base_url_result, S.
    now destruct (String.eqb_spec x "").
  - intros key f N F. rewrite validate_ssl_key_and_cert_file_result.
    apply truthy_true_iff in N. rewrite N, F. now destruct key.
  - intros k f Hf N F. rewrite validate_ssl_key_and_cert_file_result.
    apply must_be_file_iff in Hf. apply truthy_true_iff in N. now rewrite Hf, N, F.
  - intros k. now rewrite validate_ssl_key_and_cert_file_result.
  - intros V entry_points config H.
    now rewrite validate_env_config_not_found by now apply not_registered_mem.
  - intros V entry_points config default_config env_config passed key rest D C K P M.
    rewrite (validate_env_config_found env entry_points config _ _ D C), K.
    now rewrite (find_first_failing _ passed key rest P M).
  - intros x e. rewrite validate_base_url_result.
    destruct (String.eqb x ""); [discriminate|].
    destruct (startswith x "/"); [discriminate | now intros [= <-]].
  - intros key cert e. rewrite validate_ssl_key_and_cert_file_result.
    destruct cert as [f|], key as [k|]; try discriminate.
    + destruct (truthy f && negb (isfile env f)).
      * intros [= <-]. split; [reflexivity|]. right; left. now exists f.
      * destruct (truthy k && negb (isfile env k)); [|discriminate].
        intros [= <-]. split; [reflexivity|]. right; right. now exists k.
    + destruct (truthy f && negb (isfile env f)); [|discriminate].
      intros [= <-]. split; [reflexivity|]. right; left. now exists f.
    + intros [= <-]. split; [reflexivity|]. now left.
  - intros V entry_points config default_config e D.
    destruct (Dict.get (__get_configs entry_points) (lower config)) as [env_config|] eqn:C.
    + rewrite (validate_env_config_found env entry_points config _ _ D C).
      destruct (find _ _) as [k|]; [|discriminate].
      intros [= <-]. split; [reflexivity|]. right. now exists k.
    + rewrite validate_env_config_not_found by (unfold Dict.mem; now rewrite C).
      intros [= <-]. split; [reflexivity|]. now left.
  - intros f k.
    unfold ssl_cert_not_a_file_message, ssl_key_not_a_file_message,
      ssl_cert_required_message.
    repeat split; intros H; simpl in H; discriminate H.
  - intros V config available key profile. apply config_messages_differ.
  - intros x profile. unfold ssl_cert_not_a_file_message, config_missing_key_message.
    now rewrite <- append_assoc.
Qed.

(** The theorem at a base URL without its leading slash. *)
Lemma fatal_failures_share_one_class_witness :
  result (validate_base_url Sample.env "matlab")
  = Raise (new_exn FatalError
             ("The value of environment variable " ++ env_name_base_url Sample.env
              ++ " must start with " ++ dquote ++ "/" ++ dquote ++ " ")).
Proof.
  apply (proj1 (proj2 (fatal_failures_share_one_class Sample.env)));
    [discriminate | reflexivity].
Defined.

(** ** The examples of the specification *)

Example license_triad_passes :
  result (validate_mlm_license_file Sample.env
            (Some "27000@server1,27001@server2,27002@server3"))
  = Return (Some "27000@server1,27001@server2,27002@server3").
Proof. reflexivity. Qed.

Example license_without_port_fails :
  result (validate_mlm_license_file Sample.env (Some "not-a-valid-entry"))
  = Raise (new_exn NetworkLicensingError (mlm_error_message "not-a-valid-entry")).
Proof. reflexivity. Qed.

Example license_closing_comma_fails :
  result (validate_mlm_license_file Sample.env (Some "27000@server1,"))
  = Raise (new_exn NetworkLicensingError (mlm_error_message "27000@server1,")).
Proof. reflexivity. Qed.

Example license_file_and_server_pass :
  result (validate_mlm_license_file Sample.env (Some "/tmp/real.key:27000@server1"))
  = Return (Some "/tmp/real.key:27000@server1").
Proof. reflexivity. Qed.

Example base_url_examples :
  result (validate_base_url Sample.env "") = Return ""
  /\ result (validate_base_url Sample.env "/matlab/") = Return "/matlab"
  /\ result (validate_base_url Sample.env "matlab")
     = Raise (new_exn FatalError (base_url_error_message Sample.env)).
Proof. repeat split. Qed.

Example tls_examples :
  validate_ssl_key_and_cert_file Sample.env None None = ret (None, None)
  /\ result (validate_ssl_key_and_cert_file Sample.env (Some "/tmp/real.key") None)
     = Raise (new_exn FatalError ssl_cert_required_message)
  /\ result (validate_ssl_key_and_cert_file Sample.env None (Some "/tmp/real.crt"))
     = Return (None, Some "/tmp/real.crt").
Proof. repeat split. Qed.

Example port_examples :
  result (validate_app_port_is_free Sample.env None) = Return None
  /\ result (validate_app_port_is_free Sample.env (Some (PortStr "8080")))
     = Raise (new_exn FatalError (port_error_message Sample.env (PortStr "8080")))
  /\ result (validate_app_port_is_free Sample.env (Some (PortInt 8081)))
     = Return (Some (PortInt 8081)).
Proof. repeat split. Qed.

Example profile_name_is_case_insensitive :
  validate_env_config Sample.env Sample.entry_points "Cloud"
  = validate_env_config Sample.env Sample.entry_points "cloud".
Proof. reflexivity. Qed.

Example root_messages_differ_by_flag :
  result (terminate_on_invalid_matlab_root_path Sample.env "/opt/empty" true)
  <> result (terminate_on_invalid_matlab_root_path Sample.env "/opt/empty" false).
Proof. discriminate. Qed.
